(** * welt_news: a shallow embedding of the Welt.de scraper

    The development follows [src/scraper.py] and [src/config.py].

    - Python [str] values are [string]s whose characters are the code points
      below 256; [encode] gives their UTF-8 bytes.
    - The libraries the scraper calls are modelled by what the scraper uses
      of them: [hashlib.md5] is implemented in full, BeautifulSoup by a tree
      of elements and text nodes with [find], [find_all] and [get_text],
      and the network, the disk, the clock, the HTML parser, the date parser
      and [urllib.parse] are oracles of the environment.
    - The scraper object ([self.articles], [self.scraped_urls]) and the
      history of its effects are threaded through every method.
    - [urljoin] raises [ValueError] on some targets; nothing catches it, so
      [extract_article_links], [scrape_category] and [scrape_all] either
      return or raise, and a run that raises ends where it is. *)

From Stdlib Require Import ZArith Ascii String List Lia.
From stdpp Require Import base decidable option list gmap sets strings.
From Equations Require Import Equations.
Import ListNotations.

#[local] Set Warnings "-register-all".


Local Open Scope string_scope.

(** ** Python string primitives *)

Module py.

(** [str.isspace] on one character: TAB..CR, FS..US, space, NEL, NBSP. *)
Definition is_space (c : ascii) : bool :=
  let n := nat_of_ascii c in
  ((9 <=? n)%nat && (n <=? 13)%nat) || ((28 <=? n)%nat && (n <=? 32)%nat)
  || (n =? 133)%nat || (n =? 160)%nat.

Fixpoint lstrip (s : string) : string :=
  match s with
  | EmptyString => EmptyString
  | String c s' => if is_space c then lstrip s' else s
  end.

Fixpoint rstrip (s : string) : string :=
  match s with
  | EmptyString => EmptyString
  | String c s' =>
      match rstrip s' with
      | EmptyString => if is_space c then EmptyString else String c EmptyString
      | r => String c r
      end
  end.

(** [s.strip()] *)
Definition strip (s : string) : string := rstrip (lstrip s).

(** [s.startswith(p)] *)
Fixpoint startswith (p s : string) : bool :=
  match p, s with
  | EmptyString, _ => true
  | String a p', String b s' => Ascii.eqb a b && startswith p' s'
  | String _ _, EmptyString => false
  end.

(** [p in s] *)
Fixpoint contains (p s : string) : bool :=
  startswith p s ||
  match s with
  | EmptyString => false
  | String _ s' => contains p s'
  end.

(** [s.endswith(p)] *)
Fixpoint endswith (p s : string) : bool :=
  String.eqb s p ||
  match s with
  | EmptyString => false
  | String _ s' => endswith p s'
  end.

(** [s.split(sep)] for a one-character separator: never the empty list. *)
Fixpoint split (sep : ascii) (s : string) : list string :=
  match s with
  | EmptyString => [EmptyString]
  | String c s' =>
      if Ascii.eqb c sep then EmptyString :: split sep s'
      else match split sep s' with
           | [] => [String c EmptyString]
           | w :: ws => String c w :: ws
           end
  end.

(** [s.split()]: the maximal runs of non-space characters. *)
Fixpoint split_ws_aux (cur : string) (s : string) : list string :=
  match s with
  | EmptyString => if String.eqb cur EmptyString then [] else [cur]
  | String c s' =>
      if is_space c
      then (if String.eqb cur EmptyString then [] else [cur]) ++ split_ws_aux EmptyString s'
      else split_ws_aux (cur ++ String c EmptyString) s'
  end.

Definition split_ws (s : string) : list string := split_ws_aux EmptyString s.

(** [c.lower()]: the letters A to Z, and the capital letters of Latin-1
    (192 to 222 without the multiplication sign 215). *)
Definition lower_char (c : ascii) : ascii :=
  let n := nat_of_ascii c in
  if ((65 <=? n)%nat && (n <=? 90)%nat)
     || ((192 <=? n)%nat && (n <=? 222)%nat && negb (n =? 215)%nat)
  then ascii_of_nat (n + 32) else c.

(** [s.lower()] *)
Fixpoint lower (s : string) : string :=
  match s with
  | EmptyString => EmptyString
  | String c s' => String (lower_char c) (lower s')
  end.

(** [s[:n]] *)
Fixpoint take (n : nat) (s : string) : string :=
  match n, s with
  | S n', String c s' => String c (take n' s')
  | _, _ => EmptyString
  end.

(** [sep.join(parts)] *)
Definition join (sep : string) (parts : list string) : string :=
  String.concat sep parts.

(** Truth value of a [str]. *)
Definition truthy (s : string) : bool := negb (String.eqb s EmptyString).

(** Truth value of an [Optional[str]]: [None] and [EmptyString] are false. *)
Definition truthy_opt (o : option string) : bool :=
  match o with
  | Some s => truthy s
  | None => false
  end.

(** [s.encode()]: UTF-8, one byte below 128 and two bytes from 128 to 255. *)
Fixpoint encode (s : string) : list Z :=
  match s with
  | EmptyString => []
  | String c s' =>
      let n := Z.of_nat (nat_of_ascii c) in
      (if (n <? 128)%Z then [n]
       else [Z.lor 192 (Z.shiftr n 6); Z.lor 128 (Z.land n 63)])
      ++ encode s'
  end.

(** [str.format] with named fields [{name}] and no format specification. *)
Fixpoint format_aux (field : option string) (args : list (string * string))
    (tpl : string) : string :=
  match tpl with
  | EmptyString => EmptyString
  | String c tpl' =>
      match field with
      | None =>
          if Ascii.eqb c "{" then format_aux (Some EmptyString) args tpl'
          else String c (format_aux None args tpl')
      | Some name =>
          if Ascii.eqb c "}"
          then match List.find (fun kv => String.eqb (fst kv) name) args with
               | Some kv => snd kv
               | None => EmptyString
               end ++ format_aux None args tpl'
          else format_aux (Some (name ++ String c EmptyString)) args tpl'
      end
  end.

Definition format (tpl : string) (args : list (string * string)) : string :=
  format_aux None args tpl.

End py.

(** ** hashlib.md5 (RFC 1321) *)

Module hashlib.

Local Open Scope Z_scope.

Definition mask32 (x : Z) : Z := x mod 2 ^ 32.

Definition add32 (x y : Z) : Z := mask32 (x + y).

Definition not32 (x : Z) : Z := Z.lxor x 4294967295.

Definition rotl32 (x c : Z) : Z :=
  mask32 (Z.lor (Z.shiftl x c) (Z.shiftr x (32 - c))).

Definition shifts : list Z :=
  [7; 12; 17; 22; 7; 12; 17; 22; 7; 12; 17; 22; 7; 12; 17; 22;
   5; 9; 14; 20; 5; 9; 14; 20; 5; 9; 14; 20; 5; 9; 14; 20;
   4; 11; 16; 23; 4; 11; 16; 23; 4; 11; 16; 23; 4; 11; 16; 23;
   6; 10; 15; 21; 6; 10; 15; 21; 6; 10; 15; 21; 6; 10; 15; 21].

(** [sines i = floor (2^32 * |sin (i + 1)|)] *)
Definition sines : list Z :=
  [3614090360; 3905402710; 606105819; 3250441966;
   4118548399; 1200080426; 2821735955; 4249261313;
   1770035416; 2336552879; 4294925233; 2304563134;
   1804603682; 4254626195; 2792965006; 1236535329;
   4129170786; 3225465664; 643717713; 3921069994;
   3593408605; 38016083; 3634488961; 3889429448;
   568446438; 3275163606; 4107603335; 1163531501;
   2850285829; 4243563512; 1735328473; 2368359562;
   4294588738; 2272392833; 1839030562; 4259657740;
   2763975236; 1272893353; 4139469664; 3200236656;
   681279174; 3936430074; 3572445317; 76029189;
   3654602809; 3873151461; 530742520; 3299628645;
   4096336452; 1126891415; 2878612391; 4237533241;
   1700485571; 2399980690; 4293915773; 2240044497;
   1873313359; 4264355552; 2734768916; 1309151649;
   4149444226; 3174756917; 718787259; 3951481745].

(** The [n] low bytes of [x], least significant first. *)
Fixpoint le_bytes (n : nat) (x : Z) : list Z :=
  match n with
  | O => []
  | S n' => x mod 256 :: le_bytes n' (x / 256)
  end.

Fixpoint le_word (bs : list Z) : Z :=
  match bs with
  | [] => 0
  | b :: bs' => b + 256 * le_word bs'
  end.

Definition pad (msg : list Z) : list Z :=
  let len := Z.of_nat (List.length msg) in
  msg ++ [128] ++ List.repeat 0 (Z.to_nat ((55 - len) mod 64))
      ++ le_bytes 8 (8 * len).

(** Cut a list into blocks of [n] elements; [fuel] bounds the number of
    blocks. *)
Fixpoint blocks {A} (fuel n : nat) (l : list A) : list (list A) :=
  match fuel, l with
  | O, _ => []
  | _, [] => []
  | S fuel', _ => firstn n l :: blocks fuel' n (skipn n l)
  end.

Definition words (chunk : list Z) : list Z :=
  List.map le_word (blocks 16 4 chunk).

Definition registers : Type := Z * Z * Z * Z.

Definition step (M : list Z) (st : registers) (i : nat) : registers :=
  let '(A, B, C, D) := st in
  let iz := Z.of_nat i in
  let '(F, g) :=
    if iz <? 16 then (Z.lor (Z.land B C) (Z.land (not32 B) D), iz)
    else if iz <? 32
         then (Z.lor (Z.land D B) (Z.land (not32 D) C), (5 * iz + 1) mod 16)
    else if iz <? 48 then (Z.lxor (Z.lxor B C) D, (3 * iz + 5) mod 16)
    else (Z.lxor C (Z.lor B (not32 D)), (7 * iz) mod 16) in
  let F' := add32 (add32 (add32 F A) (List.nth i sines 0))
                  (List.nth (Z.to_nat g) M 0) in
  (D, add32 B (rotl32 F' (List.nth i shifts 0)), B, C).

Definition compress (st : registers) (chunk : list Z) : registers :=
  let '(a0, b0, c0, d0) := st in
  let '(A, B, C, D) := List.fold_left (step (words chunk)) (List.seq 0 64) st in
  (add32 a0 A, add32 b0 B, add32 c0 C, add32 d0 D).

Definition initial : registers := (1732584193, 4023233417, 2562383102, 271733878).

(** [md5(data).digest()] *)
Definition digest (data : list Z) : list Z :=
  let padded := pad data in
  let '(a, b, c, d) :=
    List.fold_left compress (blocks (List.length padded) 64 padded) initial in
  le_bytes 4 a ++ le_bytes 4 b ++ le_bytes 4 c ++ le_bytes 4 d.

Definition hex_digit (n : Z) : ascii :=
  List.nth (Z.to_nat n)
    ["0"; "1"; "2"; "3"; "4"; "5"; "6"; "7";
     "8"; "9"; "a"; "b"; "c"; "d"; "e"; "f"]%char "0"%char.

Fixpoint hex (bs : list Z) : string :=
  match bs with
  | [] => EmptyString
  | b :: bs' =>
      String (hex_digit ((b / 16) mod 16)) (String (hex_digit (b mod 16)) (hex bs'))
  end.

(** [md5(data).hexdigest()] *)
Definition md5_hexdigest (data : list Z) : string := hex (digest data).

End hashlib.

(** ** BeautifulSoup documents *)

Module bs4.

(** A parsed document: elements and text nodes.  The root of a tree is the
    [BeautifulSoup] object itself. *)
Inductive node : Type :=
| Text (s : string)
| Tag (name : string) (attrs : list (string * string)) (children : list node).

(** [.descendants]: every node below [n], in document order. *)
Fixpoint descendants (n : node) : list node :=
  match n with
  | Text _ => []
  | Tag _ _ cs => List.flat_map (fun c => c :: descendants c) cs
  end.

(** The text nodes below [n] (or [n] itself), in document order. *)
Fixpoint strings (n : node) : list string :=
  match n with
  | Text s => [s]
  | Tag _ _ cs => List.flat_map strings cs
  end.

(** [tag.get_text(strip=True)]: every text node stripped, the empty ones
    skipped, the rest concatenated. *)
Definition get_text (n : node) : string :=
  py.join EmptyString (List.filter py.truthy (List.map py.strip (strings n))).

(** [tag.get(key)] *)
Definition get (key : string) (n : node) : option string :=
  match n with
  | Text _ => None
  | Tag _ attrs _ =>
      match List.find (fun kv => String.eqb (fst kv) key) attrs with
      | Some kv => Some (snd kv)
      | None => None
      end
  end.

Definition is_tag (nm : string) (n : node) : bool :=
  match n with
  | Text _ => false
  | Tag nm' _ _ => String.eqb nm' nm
  end.

(** [key=True]: the attribute is present. *)
Definition has_attr (key : string) (n : node) : bool :=
  match get key n with
  | Some _ => true
  | None => false
  end.

(** [{key: value}] on a single-valued attribute such as [name] or
    [property]: the attribute is present and equal to [value]. *)
Definition attr_is (key value : string) (n : node) : bool :=
  match get key n with
  | Some v => String.eqb v value
  | None => false
  end.

(** [{key: value}] on a multi-valued attribute such as [rel]: one of its
    whitespace-separated tokens, or their join, is [value]. *)
Definition attr_has_token (key value : string) (n : node) : bool :=
  match get key n with
  | Some v =>
      let tokens := py.split_ws v in
      List.existsb (String.eqb value) tokens
      || String.eqb (py.join " " tokens) value
  | None => false
  end.

(** [class_=f]: [f] holds of one of the classes, or of their join. *)
Definition class_matches (f : string -> bool) (n : node) : bool :=
  match get "class" n with
  | Some v =>
      let tokens := py.split_ws v in
      List.existsb f tokens || f (py.join " " tokens)
  | None => false
  end.

(** [tag.find_all(...)], the search criteria given as a predicate. *)
Definition find_all (p : node -> bool) (n : node) : list node :=
  List.filter p (descendants n).

(** [tag.find(...)]: the first match of [find_all], or [None]. *)
Definition find (p : node -> bool) (n : node) : option node :=
  List.head (find_all p n).

End bs4.

(** ** config.py *)

Record Config : Type := {
  BASE_URL : string;
  CATEGORY_URLS : list string;
  REQUEST_DELAY : nat;
  MAX_RETRIES : nat;
  MAX_ARTICLES_PER_CATEGORY : nat;
  DATA_DIR : string;
  ARTICLE_FILENAME_FORMAT : string;
  COMBINED_OUTPUT : string
}.

Definition config : Config := {|
  BASE_URL := "https://www.welt.de";
  CATEGORY_URLS :=
    ["https://www.welt.de/politik/";
     "https://www.welt.de/wirtschaft/";
     "https://www.welt.de/sport/";
     "https://www.welt.de/kultur/";
     "https://www.welt.de/wissenschaft/";
     "https://www.welt.de/"];
  REQUEST_DELAY := 2;
  MAX_RETRIES := 3;
  MAX_ARTICLES_PER_CATEGORY := 50;
  DATA_DIR := "data";
  ARTICLE_FILENAME_FORMAT := "{date}_{id}.json";
  COMBINED_OUTPUT := "data/all_articles.json"
|}.

(** ** The scraper's data *)

(** The [article_data] dictionary. *)
Record article : Type := {
  url : string;
  scraped_at : string;
  title : option string;
  text : option string;
  date : option string;
  author : option string;
  category : option string
}.

(** What [json.dump] is given: one record, or the list of records. *)
Inductive json : Type :=
| JsonArticle (a : article)
| JsonArray (l : list article).

(** What a run does to the world: requests, pauses and writes.  [EvMark]
    and [EvExtract] record two points of the scraper's own control flow,
    [self.scraped_urls.add(url)] and the call of
    [extract_article_content(url)]. *)
Inductive event : Type :=
| EvGet (url : string) (response : option string)
| EvSleep (seconds : nat)
| EvMakedirs (path : string)
| EvWrite (path : string) (data : json) (ok : bool)
| EvMark (url : string)
| EvExtract (url : string).

(** The scraper object and the history of the run, oldest event first. *)
Record state : Type := {
  articles : list article;
  scraped_urls : gset string;
  trace : list event
}.

(** [WeltScraper()] *)
Definition init : state :=
  {| articles := []; scraped_urls := ∅; trace := [] |}.

Definition log (e : event) (st : state) : state :=
  {| articles := articles st;
     scraped_urls := scraped_urls st;
     trace := trace st ++ [e] |}.

(** The environment of a run.  The oracles of the network, the disk and the
    clock are indexed by the number of events so far. *)
Record Env : Type := {
  (** [session.get] followed by [raise_for_status]: the body, or [None] for
      a [RequestException]. *)
  http_get : nat -> string -> option string;
  (** [open(path, 'w')] followed by [json.dump]: whether it succeeded. *)
  disk_write : nat -> string -> bool;
  (** [datetime.now().isoformat()] *)
  now : nat -> string;
  (** [BeautifulSoup(text, 'lxml')] *)
  lxml : string -> bs4.node;
  (** [date_parser.parse(s).isoformat()], or [None] when [parse] raises. *)
  date_parse : string -> option string;
  (** [urllib.parse.urljoin], or [None] when it raises [ValueError] (as on
      the target [//[]). *)
  urljoin : string -> string -> option string;
  (** [urllib.parse.urlparse(u).path] *)
  urlparse_path : string -> string;
  (** The order in which a [for] loop visits a set; nothing is assumed of
      it, so what is proved holds for every order. *)
  set_iter : gset string -> list string
}.

(** How a call ends: it returns a value, or an exception that nothing
    catches leaves it. *)
Inductive outcome (A : Type) : Type :=
| Returned (a : A)
| Raised.

Arguments Returned {A} a.
Arguments Raised {A}.

(** [a or b] on the results of [find]: a tag is always true. *)
Definition or_tag (a b : option bs4.node) : option bs4.node :=
  match a with
  | Some _ => a
  | None => b
  end.

(** [os.path.join(a, b)] on POSIX. *)
Definition os_path_join (a b : string) : string :=
  if py.startswith "/" b then b
  else if String.eqb a EmptyString || py.endswith "/" a then a ++ b
  else a ++ "/" ++ b.

(** The blank line between two paragraphs. *)
Definition blank_line : string :=
  String "010"%char (String "010"%char EmptyString).

(** ** scraper.py: class WeltScraper *)

Section WeltScraper.

Variable cfg : Config.
Variable env : Env.

(** The index of the next event. *)
Definition clock (st : state) : nat := List.length (trace st).

(** [time.sleep(seconds)] *)
Definition sleep (seconds : nat) (st : state) : state :=
  log (EvSleep seconds) st.

(** [get_page(self, url, retries)] (lines 41-59).  The recursion follows the
    source: a failed attempt with [retries < MAX_RETRIES] sleeps and calls
    [get_page] again with [retries + 1]. *)
Equations get_page (url : string) (retries : nat) (st : state)
  : option string * state by wf (MAX_RETRIES cfg - retries) lt :=
get_page url retries st with http_get env (clock st) url := {
  | Some response => (Some response, log (EvGet url (Some response)) st)
  | None with lt_dec retries (MAX_RETRIES cfg) := {
      | left _ =>
          get_page url (S retries)
            (sleep (REQUEST_DELAY cfg * 2) (log (EvGet url None) st))
      | right _ => (None, log (EvGet url None) st) } }.
Next Obligation. lia. Qed.

(** The substrings of line 73. *)
Definition link_patterns : list string :=
  ["/article/"; "/politik/"; "/wirtschaft/";
   "/sport/"; "/kultur/"; "/wissenschaft/"].

(** The three nested conditions of lines 73-79 on one resolved URL. *)
Definition keep_link (full_url : string) (st : state) : bool :=
  if List.existsb (fun pattern => py.contains pattern full_url) link_patterns
  then
    if py.startswith (BASE_URL cfg) full_url
       && negb (bool_decide (full_url ∈ scraped_urls st))
    then
      let path := urlparse_path env full_url in
      (3 <=? List.length (py.split "/" path))%nat
      && negb (py.endswith "/" full_url)
    else false
  else false.

(** [soup.find_all('a', href=True)] *)
Definition anchors (soup : bs4.node) : list bs4.node :=
  bs4.find_all (fun n => bs4.is_tag "a" n && bs4.has_attr "href" n) soup.

(** [link['href']] on one of these anchors. *)
Definition href (link : bs4.node) : string :=
  default EmptyString (bs4.get "href" link).

(** The loop of lines 66-80 over the anchors that are left: it raises at
    the first target on which [urljoin] raises. *)
Fixpoint collect_links (base_url : string) (st : state)
    (links : list bs4.node) (article_links : gset string)
    : outcome (gset string) :=
  match links with
  | [] => Returned article_links
  | link :: rest =>
      match urljoin env base_url (href link) with
      | None => Raised
      | Some full_url =>
          collect_links base_url st rest
            (if keep_link full_url st
             then article_links ∪ {[ full_url ]}
             else article_links)
      end
  end.

(** [extract_article_links(self, soup, base_url)] (lines 61-82) *)
Definition extract_article_links (soup : bs4.node) (base_url : string)
    (st : state) : outcome (gset string) :=
  collect_links base_url st (anchors soup) ∅.

(** The class filters of lines 110 and 140. *)
Definition author_class (x : string) : bool :=
  py.truthy x && py.contains "author" (py.lower x).

Definition body_class (x : string) : bool :=
  py.truthy x &&
  List.existsb (fun term => py.contains term (py.lower x))
    ["article"; "content"; "body"; "text"].

(** Lines 104-106 *)
Definition extract_title (soup : bs4.node) : option string :=
  let title_tag :=
    or_tag (bs4.find (bs4.is_tag "h1") soup)
           (bs4.find (bs4.is_tag "title") soup) in
  match title_tag with
  | Some tag => Some (bs4.get_text tag)
  | None => None
  end.

(** Lines 109-113 *)
Definition extract_author (soup : bs4.node) : option string :=
  let author_tag :=
    or_tag (bs4.find (fun n => bs4.is_tag "meta" n
                               && bs4.attr_is "name" "author" n) soup)
   (or_tag (bs4.find (fun n => bs4.is_tag "span" n
                               && bs4.class_matches author_class n) soup)
           (bs4.find (fun n => bs4.is_tag "a" n
                               && bs4.attr_has_token "rel" "author" n) soup)) in
  match author_tag with
  | Some tag =>
      if bs4.is_tag "meta" tag then bs4.get "content" tag
      else Some (bs4.get_text tag)
  | None => None
  end.

(** Lines 116-118 *)
Definition find_date_tag (soup : bs4.node) : option bs4.node :=
  or_tag (bs4.find (fun n => bs4.is_tag "meta" n
                             && bs4.attr_is "property" "article:published_time" n)
                   soup)
 (or_tag (bs4.find (fun n => bs4.is_tag "meta" n
                             && bs4.attr_is "name" "date" n) soup)
         (bs4.find (bs4.is_tag "time") soup)).

(** Line 120 *)
Definition raw_date (date_tag : bs4.node) : string :=
  if py.truthy_opt (bs4.get "content" date_tag)
  then default EmptyString (bs4.get "content" date_tag)
  else if py.truthy_opt (bs4.get "datetime" date_tag)
  then default EmptyString (bs4.get "datetime" date_tag)
  else bs4.get_text date_tag.

(** Lines 116-124 *)
Definition extract_date (soup : bs4.node) : option string :=
  match find_date_tag soup with
  | Some date_tag =>
      let date_str := raw_date date_tag in
      match date_parse env date_str with
      | Some iso => Some iso
      | None => Some date_str
      end
  | None => None
  end.

(** Lines 127-135 *)
Definition extract_category (url : string) (soup : bs4.node) : option string :=
  let category_tag :=
    or_tag (bs4.find (fun n => bs4.is_tag "meta" n
                               && bs4.attr_is "property" "article:section" n)
                     soup)
           (bs4.find (fun n => bs4.is_tag "meta" n
                               && bs4.attr_is "name" "category" n) soup) in
  match category_tag with
  | Some tag => bs4.get "content" tag
  | None =>
      let path_parts := py.split "/" (urlparse_path env url) in
      if (1 <? List.length path_parts)%nat
      then List.nth_error path_parts 1
      else None
  end.

(** Lines 139-140 *)
Definition find_article_body (soup : bs4.node) : option bs4.node :=
  or_tag (bs4.find (bs4.is_tag "article") soup)
         (bs4.find (fun n => bs4.is_tag "div" n
                             && bs4.class_matches body_class n) soup).

(** Lines 142-146 *)
Definition extract_text (soup : bs4.node) : option string :=
  match find_article_body soup with
  | Some article_body =>
      let paragraphs := bs4.find_all (bs4.is_tag "p") article_body in
      let text_parts :=
        List.map bs4.get_text
          (List.filter (fun p => py.truthy (bs4.get_text p)) paragraphs) in
      Some (py.join blank_line text_parts)
  | None => None
  end.

(** [extract_article_content(self, url)] (lines 84-158).  Every step of the
    [try] block is total here (the exception of the date parser is caught
    at line 123), so the handler of line 156 is never entered. *)
Definition extract_article_content (url : string) (st : state)
    : option article * state :=
  let st := log (EvExtract url) st in
  let '(response, st) := get_page url 0 st in
  match response with
  | None => (None, st)
  | Some response_text =>
      let soup := lxml env response_text in
      let article_data :=
        {| url := url;
           scraped_at := now env (clock st);
           title := extract_title soup;
           text := extract_text soup;
           date := extract_date soup;
           author := extract_author soup;
           category := extract_category url soup |} in
      if negb (py.truthy_opt (title article_data))
         || negb (py.truthy_opt (text article_data))
      then (None, st)
      else (Some article_data, st)
  end.

(** [generate_article_id(self, url)] (lines 160-162) *)
Definition generate_article_id (self : state) (url : string) : string :=
  py.take 12 (hashlib.md5_hexdigest (py.encode url)).

(** Lines 170-172 of [save_article]: the name of the article's file. *)
Definition article_filename (self : state) (article_data : article) : string :=
  let article_id := generate_article_id self (url article_data) in
  let date_str :=
    if py.truthy_opt (date article_data)
    then py.take 10 (default "unknown" (date article_data))
    else "unknown" in
  py.format (ARTICLE_FILENAME_FORMAT cfg)
    [("date", date_str); ("id", article_id)].

(** [save_article(self, article_data)] (lines 164-182), on a record: a
    dictionary with keys is true, so line 166 does not return. *)
Definition save_article (article_data : article) (st : state) : state :=
  let filename := article_filename st article_data in
  let filepath := os_path_join (DATA_DIR cfg) filename in
  if disk_write env (clock st) filepath
  then
    {| articles := articles st ++ [article_data];
       scraped_urls := scraped_urls st;
       trace := trace st ++ [EvWrite filepath (JsonArticle article_data) true] |}
  else log (EvWrite filepath (JsonArticle article_data) false) st.

(** [save_all_articles(self)] (lines 184-191) *)
Definition save_all_articles (st : state) : state :=
  let data := JsonArray (articles st) in
  log (EvWrite (COMBINED_OUTPUT cfg) data
         (disk_write env (clock st) (COMBINED_OUTPUT cfg))) st.

(** [self.scraped_urls.add(url)] *)
Definition mark_scraped (article_url : string) (st : state) : state :=
  {| articles := articles st;
     scraped_urls := scraped_urls st ∪ {[ article_url ]};
     trace := trace st ++ [EvMark article_url] |}.

(** Lines 219-222: extract the article and save it; the result tells
    whether [count] is incremented. *)
Definition extract_and_save (article_url : string) (st : state)
    : bool * state :=
  let '(article_data, st) := extract_article_content article_url st in
  match article_data with
  | Some a => (true, save_article a st)
  | None => (false, st)
  end.

(** The [for] loop of [scrape_category] (lines 208-225) over the links in
    the order of iteration. *)
Fixpoint scrape_links (max_articles : nat) (article_links : list string)
    (count : nat) (st : state) : state :=
  match article_links with
  | [] => st
  | article_url :: rest =>
      if (max_articles <=? count)%nat then st
      else if bool_decide (article_url ∈ scraped_urls st)
      then scrape_links max_articles rest count st
      else
        let st := mark_scraped article_url st in
        let '(saved, st) := extract_and_save article_url st in
        let count := if saved then S count else count in
        let st := sleep (REQUEST_DELAY cfg) st in
        scrape_links max_articles rest count st
  end.

(** [scrape_category(self, category_url, max_articles)] (lines 193-225):
    it raises when [extract_article_links] does (line 204), before any
    link is visited. *)
Definition scrape_category (category_url : string) (max_articles : nat)
    (st : state) : outcome unit * state :=
  let '(response, st) := get_page category_url 0 st in
  match response with
  | None => (Returned tt, st)
  | Some response_text =>
      let soup := lxml env response_text in
      match extract_article_links soup category_url st with
      | Raised => (Raised, st)
      | Returned article_links =>
          (Returned tt,
           scrape_links max_articles (set_iter env article_links) 0 st)
      end
  end.

(** The loop of [scrape_all] over the categories (lines 234-240): it
    raises when [scrape_category] does (line 237), and the categories that
    are left are not scraped. *)
Fixpoint scrape_categories (category_urls : list string)
    (total_articles : nat) (st : state) : outcome nat * state :=
  match category_urls with
  | [] => (Returned total_articles, st)
  | category_url :: rest =>
      let articles_before := List.length (articles st) in
      let '(r, st) := scrape_category category_url
                        (MAX_ARTICLES_PER_CATEGORY cfg) st in
      match r with
      | Raised => (Raised, st)
      | Returned _ =>
          let articles_scraped :=
            List.length (articles st) - articles_before in
          scrape_categories rest (total_articles + articles_scraped) st
      end
  end.

(** [scrape_all(self)] (lines 227-246): when the loop raises,
    [save_all_articles] is not reached. *)
Definition scrape_all (st : state) : outcome nat * state :=
  let st := log (EvMakedirs (DATA_DIR cfg)) st in
  let '(r, st) := scrape_categories (CATEGORY_URLS cfg) 0 st in
  match r with
  | Raised => (Raised, st)
  | Returned total_articles => (Returned total_articles, save_all_articles st)
  end.

End WeltScraper.

(** ** Observations on a run *)

(** What happened between two states of one run. *)
Definition events_since (st st' : state) : list event :=
  List.skipn (List.length (trace st)) (trace st').

(** The records of the article files that were written. *)
Definition saved_article (e : event) : option article :=
  match e with
  | EvWrite _ (JsonArticle a) true => Some a
  | _ => None
  end.

Definition successful_saves (t : list event) : list article :=
  omap saved_article t.

(** Every attempt to write an article file, failed or not. *)
Definition is_article_write (e : event) : bool :=
  match e with
  | EvWrite _ (JsonArticle _) _ => true
  | _ => false
  end.

Definition article_writes (t : list event) : list event :=
  List.filter is_article_write t.

Definition is_write (e : event) : bool :=
  match e with
  | EvWrite _ _ _ => true
  | _ => false
  end.

(** The URLs whose extraction was attempted, and those marked as scraped. *)
Definition extracted_url (e : event) : option string :=
  match e with
  | EvExtract u => Some u
  | _ => None
  end.

Definition extracted (t : list event) : list string := omap extracted_url t.

Definition marked_url (e : event) : option string :=
  match e with
  | EvMark u => Some u
  | _ => None
  end.

Definition marked (t : list event) : list string := omap marked_url t.

(** Requests and pauses: the only events of [get_page]. *)
Definition is_net (e : event) : bool :=
  match e with
  | EvGet _ _ | EvSleep _ => true
  | _ => false
  end.

(** The history of a fetch that fails [n + 1] times in a row: each of the
    first [n] failures is followed by a pause before the next attempt. *)
Definition failed_attempts (url : string) (pause n : nat) : list event :=
  List.concat (List.repeat [EvGet url None; EvSleep pause] n)
  ++ [EvGet url None].





(** [st'] is [st] after the events [d]: the collection has grown by the
    records saved in [d] and the scraped set by the URLs marked in [d]. *)
Definition run_of (d : list event) (st st' : state) : Prop :=
  trace st' = (trace st ++ d)%list
  ∧ articles st' = (articles st ++ successful_saves d)%list
  ∧ scraped_urls st' = scraped_urls st ∪ list_to_set (marked d).

(** The discipline of the scraped set over the events [d] of a run that
    starts with the scraped set [S]: no URL is extracted twice, no URL of [S]
    is extracted, and every extraction comes after the URL was marked. *)
Definition disciplined (S : gset string) (d : list event) : Prop :=
  NoDup (extracted d)
  ∧ (∀ u, In u (extracted d) → u ∉ S)
  ∧ (∀ pre u post, d = (pre ++ EvExtract u :: post)%list → In (EvMark u) pre).

Definition is_hex (c : ascii) : bool :=
  List.existsb (Ascii.eqb c)
    ["0"; "1"; "2"; "3"; "4"; "5"; "6"; "7";
     "8"; "9"; "a"; "b"; "c"; "d"; "e"; "f"]%char.

Fixpoint all_chars (p : ascii -> bool) (s : string) : bool :=
  match s with
  | EmptyString => true
  | String c s' => p c && all_chars p s'
  end.

(** The environment with another date parser, and a record without its
    date: what the date parser can and cannot influence. *)
Definition with_date_parse (f : string → option string) (env : Env) : Env :=
  {| http_get := http_get env;
     disk_write := disk_write env;
     now := now env;
     lxml := lxml env;
     date_parse := f;
     urljoin := urljoin env;
     urlparse_path := urlparse_path env;
     set_iter := set_iter env |}.

Definition without_date (a : article) : article :=
  {| url := url a;
     scraped_at := scraped_at a;
     title := title a;
     text := text a;
     date := None;
     author := author a;
     category := category a |}.

(** The record that [extract_article_content] builds from a parsed page
    (lines 92-146), before the validation of line 149. *)
Definition article_of (env : Env) (u : string) (time : string)
    (soup : bs4.node) : article :=
  {| url := u;
     scraped_at := time;
     title := extract_title soup;
     text := extract_text soup;
     date := extract_date env soup;
     author := extract_author soup;
     category := extract_category env u soup |}.

(** ** Example pages and environments *)

Definition paragraph (s : string) : bs4.node :=
  bs4.Tag "p" [] [bs4.Text s].

Definition document (head body : list bs4.node) : bs4.node :=
  bs4.Tag "[document]" []
    [bs4.Tag "html" [] [bs4.Tag "head" [] head; bs4.Tag "body" [] body]].

(** A page with a title element, a level-1 heading and an [article] element
    that holds the given paragraphs, followed by anything. *)
Definition article_page (page_title heading : string) (paras : list string)
    (rest : list bs4.node) : bs4.node :=
  document [bs4.Tag "title" [] [bs4.Text page_title]]
    (bs4.Tag "h1" [] [bs4.Text heading]
     :: bs4.Tag "article" [] (List.map paragraph paras)
     :: rest).

(** The same page without the heading. *)
Definition article_page_no_h1 (page_title : string) (paras : list string)
    : bs4.node :=
  document [bs4.Tag "title" [] [bs4.Text page_title]]
    [bs4.Tag "article" [] (List.map paragraph paras)].

(** [<h1>Title</h1><article><p>Hello</p><p>World</p></article>] as lxml
    parses it. *)
Definition hello_world_page : bs4.node :=
  bs4.Tag "[document]" []
    [bs4.Tag "html" []
       [bs4.Tag "body" []
          [bs4.Tag "h1" [] [bs4.Text "Title"];
           bs4.Tag "article" []
             [bs4.Tag "p" [] [bs4.Text "Hello"];
              bs4.Tag "p" [] [bs4.Text "World"]]]]].

(** A heading, and an [article] element whose only paragraph is blank. *)
Definition no_text_page : bs4.node :=
  document []
    [bs4.Tag "h1" [] [bs4.Text "Title"];
     bs4.Tag "article" [] [bs4.Tag "p" [] [bs4.Text "  "]]].

(** A complete article whose [time] element has neither attributes nor
    text. *)
Definition empty_time_page : bs4.node :=
  document []
    [bs4.Tag "h1" [] [bs4.Text "Title"];
     bs4.Tag "time" [] [];
     bs4.Tag "article" [] [paragraph "Hello"]].

(** A complete article dated in words. *)
Definition worded_date_page : bs4.node :=
  document [bs4.Tag "meta" [("name", "author"); ("content", "A. Author")] []]
    [bs4.Tag "h1" [] [bs4.Text "Title"];
     bs4.Tag "time" [("datetime", "gestern Abend")] [];
     bs4.Tag "article" [] [paragraph "Hello"]].

(** A listing with an article link, a link to a category page, a link to
    another site and a link to a page without a section. *)
Definition listing_page : bs4.node :=
  document []
    [bs4.Tag "a" [("href", "/politik/article1/test.html")] [bs4.Text "one"];
     bs4.Tag "a" [("href", "/politik/")] [bs4.Text "Politik"];
     bs4.Tag "a" [("href", "https://example.org/sport/x.html")] [bs4.Text "x"];
     bs4.Tag "a" [("href", "/impressum.html")] [bs4.Text "Impressum"];
     bs4.Tag "a" [] [bs4.Text "no target"]].

Definition example_url : string :=
  "https://www.welt.de/politik/article1/test.html".

(** The part of [scheme://host/path] from the first slash after the host,
    and the part before it. *)
Fixpoint from_slash (s : string) : string :=
  match s with
  | EmptyString => EmptyString
  | String c s' => if Ascii.eqb c "/" then s else from_slash s'
  end.

Fixpoint until_slash (s : string) : string :=
  match s with
  | EmptyString => EmptyString
  | String c s' => if Ascii.eqb c "/" then EmptyString else String c (until_slash s')
  end.

Fixpoint skip (n : nat) (s : string) : string :=
  match n, s with
  | S n', String _ s' => skip n' s'
  | _, _ => s
  end.

Definition example_path (u : string) : string :=
  if py.startswith "https://" u then from_slash (skip 8 u) else u.

Definition example_urljoin (base href : string) : option string :=
  if py.startswith "//[" href then None
  else if py.startswith "/" href
  then Some ("https://" ++ until_slash (skip 8 base) ++ href)
  else Some href.

(** A site is a table from URLs to pages.  In the example environment a
    request succeeds for the URLs of the site, the body of a page is its
    URL, the disk works or not as [disk_ok] says, and the date parser
    accepts the strings that start with a digit. *)
Definition lookup_page (site : list (string * bs4.node)) (u : string)
    : option bs4.node :=
  match List.find (fun kv => String.eqb (fst kv) u) site with
  | Some kv => Some (snd kv)
  | None => None
  end.

Definition starts_with_digit (s : string) : bool :=
  match s with
  | EmptyString => false
  | String c _ =>
      let n := nat_of_ascii c in (48 <=? n)%nat && (n <=? 57)%nat
  end.

Definition example_env (site : list (string * bs4.node)) (disk_ok : bool)
    : Env :=
  {| http_get := fun _ u =>
       match lookup_page site u with
       | Some _ => Some u
       | None => None
       end;
     disk_write := fun _ _ => disk_ok;
     now := fun _ => "2024-01-15T12:00:00";
     lxml := fun body =>
       match lookup_page site body with
       | Some page => page
       | None => bs4.Tag "[document]" [] []
       end;
     date_parse := fun s => if starts_with_digit s then Some s else None;
     urljoin := example_urljoin;
     urlparse_path := example_path;
     set_iter := elements |}.

Definition example_site : list (string * bs4.node) :=
  [("https://www.welt.de/politik/", listing_page);
   (example_url, hello_world_page)].

(** A listing with one link, to a page two segments deep. *)
Definition short_path_listing : bs4.node :=
  document [] [bs4.Tag "a" [("href", "/sport/a")] [bs4.Text "a"]].

(** A listing with a link that [urljoin] does not accept. *)
Definition bad_target_listing : bs4.node :=
  document []
    [bs4.Tag "a" [("href", "/politik/article1/test.html")] [bs4.Text "one"];
     bs4.Tag "a" [("href", "//[")] [bs4.Text "bad"]].

(** An article whose paragraph has inline markup:
    [<p>Hello <b>big</b> World</p>]. *)
Definition inline_markup_page : bs4.node :=
  bs4.Tag "[document]" []
    [bs4.Tag "html" []
       [bs4.Tag "body" []
          [bs4.Tag "h1" [] [bs4.Text "Title"];
           bs4.Tag "article" []
             [bs4.Tag "p" []
                [bs4.Text "Hello ";
                 bs4.Tag "b" [] [bs4.Text "big"];
                 bs4.Text " World"]]]]].

(** Document order: [x] is the first node below [soup] that [p] accepts,
    and [p] accepts no node below [soup]. *)
Definition first_match (p : bs4.node -> bool) (soup x : bs4.node) : Prop :=
  ∃ pre post,
    bs4.descendants soup = (pre ++ x :: post)%list
    ∧ p x = true
    ∧ ∀ y, In y pre → p y = false.

Definition no_match (p : bs4.node -> bool) (soup : bs4.node) : Prop :=
  ∀ y, In y (bs4.descendants soup) → p y = false.

(** The segments of a path: what follows each of its slashes. *)
Definition path_segments (path : string) : list string :=
  List.tl (py.split "/" path).

(** C2 as stated, for one page: no URL that is returned has a path of fewer
    than 3 segments. *)
Definition links_have_three_segments (cfg : Config) (env : Env)
    (soup : bs4.node) (base_url : string) (st : state) : Prop :=
  ∀ links u,
    extract_article_links cfg env soup base_url st = Returned links →
    u ∈ links →
    ¬ (List.length (path_segments (urlparse_path env u)) < 3)%nat.

(** C5 as stated: a paragraph gives its text, stripped; the empty ones are
    dropped and the others joined by a blank line. *)
Definition paragraph_as_stated (p : bs4.node) : string :=
  py.strip (py.join EmptyString (bs4.strings p)).

Definition text_as_stated (container : bs4.node) : string :=
  py.join (String "010"%char (String "010"%char EmptyString))
    (List.filter py.truthy
       (List.map paragraph_as_stated
          (bs4.find_all (bs4.is_tag "p") container))).

(** C1 as stated, at one URL and one state: when the page is fetched, a
    record is saved exactly when the title and the text are non-empty. *)
Definition persisted_iff_valid (cfg : Config) (env : Env) (u : string)
    (st : state) : Prop :=
  ∀ html st1,
    get_page cfg env u 0 (log (EvExtract u) st) = (Some html, st1) →
    successful_saves
      (events_since st (snd (extract_and_save cfg env u st))) ≠ []
    ↔ py.truthy_opt (extract_title (lxml env html)) = true
      ∧ py.truthy_opt (extract_text (lxml env html)) = true.

(** C6 as stated: the date part of the file name is [unknown] only when the
    record has no date. *)
Definition filename_as_stated (self : state) (a : article) : string :=
  match date a with
  | Some d => py.take 10 d
  | None => "unknown"
  end ++ "_" ++ generate_article_id self (url a) ++ ".json".

(** The record extracted from [empty_time_page]. *)
Definition empty_date_article : article :=
  {| url := example_url;
     scraped_at := "2024-01-15T12:00:00";
     title := Some "Title";
     text := Some "Hello";
     date := Some EmptyString;
     author := None;
     category := Some "politik" |}.

(** ** Further observations on a run *)

(** The history of a fetch: [k] failed requests, each followed by a pause,
    then a last request whose response is [r]. *)
Definition attempts (u : string) (pause k : nat) (r : option string)
    : list event :=
  List.concat (List.repeat [EvGet u None; EvSleep pause] k) ++ [EvGet u r].


(** The validation of line 149. *)
Definition valid_record (a : article) : bool :=
  py.truthy_opt (title a) && py.truthy_opt (text a).

(** The events of one iteration of the loop of [scrape_category] that does
    not skip its link: the mark, the extraction with its requests, the write
    of the record if one was extracted, and the pause.  The name of the file
    does not depend on the scraper object, so it is given with [init]. *)
Inductive visit (cfg : Config) (env : Env) : string → list event → Prop :=
| visit_rejected (u : string) (net : list event) :
    forallb is_net net = true →
    visit cfg env u
      (EvMark u :: EvExtract u :: net ++ [EvSleep (REQUEST_DELAY cfg)])
| visit_extracted (u : string) (net : list event) (a : article) (t : nat) :
    forallb is_net net = true →
    url a = u →
    valid_record a = true →
    visit cfg env u
      (EvMark u :: EvExtract u :: net
       ++ [EvWrite (os_path_join (DATA_DIR cfg) (article_filename cfg init a))
             (JsonArticle a)
             (disk_write env t
                (os_path_join (DATA_DIR cfg) (article_filename cfg init a)));
           EvSleep (REQUEST_DELAY cfg)]).

(** The events of the loops of [scrape_category] and [scrape_all]: requests
    and their pauses, and the visits of the links [us], in order. *)
Inductive history (cfg : Config) (env : Env)
    : list string → list event → Prop :=
| history_nil : history cfg env [] []
| history_net (us : list string) (net d : list event) :
    forallb is_net net = true →
    history cfg env us d →
    history cfg env us (net ++ d)
| history_visit (u : string) (us : list string) (dv d : list event) :
    visit cfg env u dv →
    history cfg env us d →
    history cfg env (u :: us) (dv ++ d).

(** No whitespace at the start, and none at the end. *)
Definition starts_clean (s : string) : bool :=
  match s with
  | EmptyString => true
  | String c _ => negb (py.is_space c)
  end.

Fixpoint ends_clean (s : string) : bool :=
  match s with
  | EmptyString => true
  | String c EmptyString => negb (py.is_space c)
  | String _ s' => ends_clean s'
  end.

(** ** Further example pages and environments *)

(** The network fails until the clock reaches [ready]. *)
Definition flaky_env (ready : nat) : Env :=
  {| http_get := fun t u => if (t <? ready)%nat then None else Some u;
     disk_write := fun _ _ => true;
     now := fun _ => "2024-01-15T12:00:00";
     lxml := fun _ => hello_world_page;
     date_parse := fun _ => None;
     urljoin := example_urljoin;
     urlparse_path := example_path;
     set_iter := elements |}.

(** A blank heading, a title element and a paragraph with text. *)
Definition blank_h1_site : list (string * bs4.node) :=
  [(example_url, article_page "A title" "  " ["Hello"] [])].

(** A page whose body is one element, given by its tag and class, that
    holds the given paragraphs. *)
Definition container_page (nm cls : string) (paras : list string)
    : bs4.node :=
  document [] [bs4.Tag nm [("class", cls)] (List.map paragraph paras)].

(** A [div] of paragraphs with a class, followed by an [article] element of
    paragraphs. *)
Definition div_then_article_page (cls : string) (div_paras paras : list string)
    : bs4.node :=
  document []
    [bs4.Tag "div" [("class", cls)] (List.map paragraph div_paras);
     bs4.Tag "article" [] (List.map paragraph paras)].

(** A record whose raw date starts with a slash. *)
Definition slash_date_article : article :=
  {| url := example_url;
     scraped_at := "2024-01-15T12:00:00";
     title := Some "Title";
     text := Some "Hello";
     date := Some "/tmp/heute";
     author := None;
     category := Some "politik" |}.

(** An author meta tag without content, and an author span. *)
Definition meta_author_page : bs4.node :=
  document [bs4.Tag "meta" [("name", "author")] []]
    [bs4.Tag "span" [("class", "author")] [bs4.Text "A. Author"]].



(** ** Properties *)

Section Properties.

Local Open Scope nat_scope.

Variable cfg : Config.
Variable env : Env.

Lemma events_since_app st st' d :
  trace st' = (trace st ++ d)%list → events_since st st' = d.
Proof.
  intros H. unfold events_since. rewrite H.
  rewrite List.skipn_app, List.skipn_all, Nat.sub_diag. reflexivity.
Qed.

Lemma run_of_refl st : run_of [] st st.
Proof.
  unfold run_of. simpl. rewrite !app_nil_r.
  split_and!; try done. by rewrite (right_id_L ∅ (∪)).
Qed.

Lemma successful_saves_app d1 d2 :
  successful_saves (d1 ++ d2) = (successful_saves d1 ++ successful_saves d2)%list.
Proof. apply omap_app. Qed.

Lemma marked_app d1 d2 : marked (d1 ++ d2) = (marked d1 ++ marked d2)%list.
Proof. apply omap_app. Qed.

Lemma extracted_app d1 d2 : extracted (d1 ++ d2) = (extracted d1 ++ extracted d2)%list.
Proof. apply omap_app. Qed.

Lemma run_of_trans d1 d2 st1 st2 st3 :
  run_of d1 st1 st2 → run_of d2 st2 st3 → run_of (d1 ++ d2) st1 st3.
Proof.
  intros (T1 & A1 & S1) (T2 & A2 & S2). unfold run_of.
  rewrite T2, T1, A2, A1, S2, S1, successful_saves_app, marked_app.
  rewrite !app_assoc. split_and!; try done.
  by rewrite list_to_set_app_L, (assoc_L (∪)).
Qed.

Lemma run_of_log e st :
  saved_article e = None → marked_url e = None → run_of [e] st (log e st).
Proof.
  intros Hs Hm. unfold run_of, successful_saves, marked. simpl.
  rewrite Hs, Hm. simpl. rewrite app_nil_r.
  split_and!; try done. by rewrite (right_id_L ∅ (∪)).
Qed.

(** Events of the network change neither collection. *)
Lemma net_saves d : forallb is_net d = true → successful_saves d = [].
Proof.
  induction d as [|e d IH]; simpl; [done|].
  intros [He Hd]%andb_prop. unfold successful_saves in *. simpl.
  destruct e; try discriminate; simpl; auto.
Qed.

Lemma net_marked d : forallb is_net d = true → marked d = [].
Proof.
  induction d as [|e d IH]; simpl; [done|].
  intros [He Hd]%andb_prop. unfold marked in *. simpl.
  destruct e; try discriminate; simpl; auto.
Qed.

Lemma net_extracted d : forallb is_net d = true → extracted d = [].
Proof.
  induction d as [|e d IH]; simpl; [done|].
  intros [He Hd]%andb_prop. unfold extracted in *. simpl.
  destruct e; try discriminate; simpl; auto.
Qed.

Lemma net_article_writes d : forallb is_net d = true → article_writes d = [].
Proof.
  induction d as [|e d IH]; simpl; [done|].
  intros [He Hd]%andb_prop. unfold article_writes in *. simpl.
  destruct e; try discriminate; simpl; auto.
Qed.

Lemma net_writes d : forallb is_net d = true → List.filter is_write d = [].
Proof.
  induction d as [|e d IH]; simpl; [done|].
  intros [He Hd]%andb_prop. destruct e; try discriminate; simpl; auto.
Qed.

Lemma article_writes_app d1 d2 :
  article_writes (d1 ++ d2) = (article_writes d1 ++ article_writes d2)%list.
Proof. apply List.filter_app. Qed.

(** [get_page] only talks to the network. *)
Lemma get_page_run u retries st :
  ∃ d, forallb is_net d = true
       ∧ run_of d st (snd (get_page cfg env u retries st)).
Proof.
  funelim (get_page cfg env u retries st).
  - eexists [EvGet _ (Some response)]. split; [done|]. by apply run_of_log.
  - match goal with IH : ∃ d, _ |- _ => destruct IH as (d & Hd & Hrun) end.
    eexists ([EvGet _ None; EvSleep (REQUEST_DELAY cfg * 2)] ++ d)%list. split.
    + simpl. exact Hd.
    + eapply run_of_trans; [|exact Hrun].
      eapply (run_of_trans [_] [_]); by apply run_of_log.
  - eexists [EvGet _ None]. split; [done|]. by apply run_of_log.
Qed.

(** A fetch that keeps failing, seen from attempt number [retries]. *)
Lemma get_page_failing_from u k :
  (∀ t, http_get env t u = None) →
  ∀ retries st, retries + k = MAX_RETRIES cfg →
  ∃ st', get_page cfg env u retries st = (None, st')
         ∧ trace st' = (trace st ++ failed_attempts u (REQUEST_DELAY cfg * 2) k)%list
         ∧ articles st' = articles st
         ∧ scraped_urls st' = scraped_urls st.
Proof.
  intros Hfail. induction k as [|k IH]; intros retries st Hk.
  - rewrite get_page_equation_1, Hfail. simpl.
    destruct (lt_dec retries (MAX_RETRIES cfg)) as [Hlt|Hge]; [lia|].
    simpl. eexists. split_and!; reflexivity.
  - rewrite get_page_equation_1, Hfail. simpl.
    destruct (lt_dec retries (MAX_RETRIES cfg)) as [Hlt|Hge]; [|lia].
    simpl.
    destruct (IH (S retries)
                (sleep (REQUEST_DELAY cfg * 2) (log (EvGet u None) st)))
      as (st' & Hget & Ht & Ha & Hs); [lia|].
    exists st'. split_and!; [exact Hget| |exact Ha|exact Hs].
    rewrite Ht. unfold failed_attempts. simpl. by rewrite <- !app_assoc.
Qed.


(** *** The link filter *)

Lemma keep_link_spec u st :
  keep_link cfg env u st = true ↔
    (∃ pattern, In pattern link_patterns ∧ py.contains pattern u = true)
    ∧ py.startswith (BASE_URL cfg) u = true
    ∧ (u ∉ scraped_urls st)
    ∧ (3 ≤ List.length (py.split "/" (urlparse_path env u)))%nat
    ∧ py.endswith "/" u = false.
Proof.
  unfold keep_link.
  destruct (existsb _ link_patterns) eqn:Hpat.
  - apply existsb_exists in Hpat.
    destruct (py.startswith (BASE_URL cfg) u); cbn [andb].
    + destruct (bool_decide (u ∈ scraped_urls st)) eqn:Hin; cbn [negb].
      * apply bool_decide_eq_true in Hin. split; [done|]. intros (_&_&?&_); done.
      * apply bool_decide_eq_false in Hin.
        rewrite andb_true_iff, negb_true_iff, Nat.leb_le.
        split; [intros [? ?]; split_and!; auto|intros (_&_&_&?&?); auto].
    + split; [done|]. intros (_&?&_); done.
  - split; [done|]. intros ((p & Hp & Hc) & _).
    assert (existsb (λ pattern, py.contains pattern u) link_patterns = true)
      by (apply existsb_exists; eauto).
    congruence.
Qed.

Lemma collect_links_raised base_url st links acc :
  collect_links cfg env base_url st links acc = Raised
  ↔ ∃ link, In link links ∧ urljoin env base_url (href link) = None.
Proof.
  revert acc. induction links as [|l links IH]; intros acc; simpl.
  - split; [discriminate|]. by intros (? & [] & _).
  - destruct (urljoin env base_url (href l)) as [full_url|] eqn:Hj.
    + rewrite IH. split.
      * intros (link & Hl & Hn). exists link. split; [by right|done].
      * intros (link & [->|Hl] & Hn); [congruence|]. by exists link.
    + split; [|done]. intros _. exists l. split; [by left|done].
Qed.

Lemma collect_links_returned base_url st links :
  ∀ acc r,
  collect_links cfg env base_url st links acc = Returned r →
  ∀ u, u ∈ r
       ↔ u ∈ acc
         ∨ ∃ link, In link links
                   ∧ urljoin env base_url (href link) = Some u
                   ∧ keep_link cfg env u st = true.
Proof.
  induction links as [|l links IH]; intros acc r H u; simpl in H.
  - injection H as <-. split; [by left|]. by intros [?|(? & [] & _)].
  - destruct (urljoin env base_url (href l)) as [full_url|] eqn:Hj;
      [|discriminate H].
    rewrite (IH _ _ H u). destruct (keep_link cfg env full_url st) eqn:Hk.
    + rewrite elem_of_union, elem_of_singleton. split.
      * intros [[?| ->]|(link & ? & ? & ?)]; [by left|right..].
        -- exists l. split_and!; [by left|done|done].
        -- exists link. split_and!; [by right|done|done].
      * intros [?|(link & [->|?] & Hu & ?)]; [by left; left| |].
        -- left. right. congruence.
        -- right. by exists link.
    + split.
      * intros [?|(link & ? & ? & ?)]; [by left|right].
        exists link. split_and!; [by right|done|done].
      * intros [?|(link & [->|?] & Hu & ?)]; [by left|congruence|].
        right. by exists link.
Qed.

Lemma extract_article_links_spec soup base_url st links u :
  extract_article_links cfg env soup base_url st = Returned links →
  u ∈ links
  ↔ (∃ link, In link (anchors soup)
             ∧ urljoin env base_url (href link) = Some u)
    ∧ keep_link cfg env u st = true.
Proof.
  intros H. unfold extract_article_links in H.
  rewrite (collect_links_returned _ _ _ _ _ H u). split.
  - intros [Hin|(link & Hl & Hu & Hk)]; [by apply not_elem_of_empty in Hin|].
    eauto.
  - intros [(link & Hl & Hu) Hk]. right. eauto.
Qed.

Lemma path_segments_length path :
  S (List.length (path_segments path)) = List.length (py.split "/" path).
Proof.
  unfold path_segments.
  assert (py.split "/" path ≠ []) as Hne.
  { induction path as [|c path IH]; simpl; [done|].
    destruct (Ascii.eqb c "/"); [done|]. by destruct (py.split "/" path). }
  by destruct (py.split "/" path).
Qed.

(** C2, as the code has it.  Every URL that [extract_article_links] returns
    is the target of an anchor of the page resolved against the page's URL;
    it contains one of the section substrings, starts with [BASE_URL], is
    not in the scraped set and does not end with a slash; and its path
    splits at its slashes into at least 3 pieces, the empty piece before
    the leading slash counted: the path has at least 2 segments.  So a URL
    whose path has fewer than 2 segments, or that ends with a slash, is
    never returned. *)
Theorem extract_article_links_filter (soup : bs4.node) (base_url : string)
    (st : state) (links : gset string) (u : string) :
  extract_article_links cfg env soup base_url st = Returned links →
  u ∈ links →
    (∃ link, In link (anchors soup)
             ∧ urljoin env base_url (href link) = Some u)
    ∧ (∃ pattern, In pattern link_patterns ∧ py.contains pattern u = true)
    ∧ py.startswith (BASE_URL cfg) u = true
    ∧ (u ∉ scraped_urls st)
    ∧ ¬ (List.length (py.split "/" (urlparse_path env u)) < 3)%nat
    ∧ ¬ (List.length (path_segments (urlparse_path env u)) < 2)%nat
    ∧ py.endswith "/" u = false.
Proof.
  intros Hret Hu.
  apply (extract_article_links_spec _ _ _ _ _ Hret) in Hu as [Hl Hk].
  apply keep_link_spec in Hk as (? & ? & ? & ? & ?).
  pose proof (path_segments_length (urlparse_path env u)).
  split_and!; eauto; lia.
Qed.

(** The filter is also complete: when the call returns, a resolved anchor
    target that passes the five conditions is returned. *)
Lemma extract_article_links_complete soup base_url st links link u :
  extract_article_links cfg env soup base_url st = Returned links →
  In link (anchors soup) →
  urljoin env base_url (href link) = Some u →
  keep_link cfg env u st = true →
  u ∈ links.
Proof.
  intros Hret Hl Hu Hk.
  apply (extract_article_links_spec _ _ _ _ _ Hret). eauto.
Qed.

(** *** Identifiers and file names *)

Lemma hex_length bs : String.length (hashlib.hex bs) = 2 * List.length bs.
Proof. induction bs as [|b bs IH]; simpl; [done|]. rewrite IH. lia. Qed.

Lemma hex_digit_is_hex n : is_hex (hashlib.hex_digit (n mod 16)) = true.
Proof.
  assert (0 ≤ n mod 16 < 16)%Z as Hn by (apply Z.mod_pos_bound; lia).
  unfold hashlib.hex_digit.
  assert (Z.to_nat (n mod 16) < 16) as Hk by lia.
  destruct (Z.to_nat (n mod 16)) as [|k]; [done|].
  do 15 (destruct k as [|k]; [done|]). lia.
Qed.

Lemma hex_is_hex bs : all_chars is_hex (hashlib.hex bs) = true.
Proof.
  induction bs as [|b bs IH]; [done|].
  cbn [hashlib.hex all_chars]. by rewrite !hex_digit_is_hex, IH.
Qed.

Lemma digest_length data : List.length (hashlib.digest data) = 16.
Proof.
  unfold hashlib.digest.
  destruct (fold_left hashlib.compress _ hashlib.initial) as [[[a b] c] d].
  reflexivity.
Qed.

Lemma take_length n s :
  n ≤ String.length s → String.length (py.take n s) = n.
Proof.
  revert s. induction n as [|n IH]; intros [|c s]; simpl; try lia.
  intros H. rewrite IH; lia.
Qed.

Lemma take_all_chars p n s :
  all_chars p s = true → all_chars p (py.take n s) = true.
Proof.
  revert s. induction n as [|n IH]; intros [|c s]; simpl; try done.
  intros [-> ?]%andb_prop. simpl. auto.
Qed.

Lemma md5_hexdigest_length data :
  String.length (hashlib.md5_hexdigest data) = 32.
Proof. unfold hashlib.md5_hexdigest. by rewrite hex_length, digest_length. Qed.

Lemma generate_article_id_length self u :
  String.length (generate_article_id self u) = 12.
Proof.
  unfold generate_article_id. apply take_length.
  rewrite md5_hexdigest_length. lia.
Qed.

(** C8.  [generate_article_id] depends on the URL only, not on the scraper
    it is called on: it is the first 12 characters of the MD5 hex digest of
    the UTF-8 bytes of the URL, so it always has exactly 12 characters, all
    of them hexadecimal digits.  The hash is MD5 as [hashlib] computes it:
    the digest of [abc] is [900150983cd24fb0d6963f7d28e17f72], the article
    [https://www.welt.de/politik/article1/test.html] gets [593c54e9936b],
    [https://www.welt.de/sport/a] gets [947c3817e32c], a different one, and
    a URL with a character outside ASCII is hashed through its UTF-8
    bytes. *)
Theorem generate_article_id_deterministic (self self' : state) (u : string) :
  generate_article_id self u = generate_article_id self' u
  ∧ generate_article_id self u
    = py.take 12 (hashlib.md5_hexdigest (py.encode u))
  ∧ String.length (hashlib.md5_hexdigest (py.encode u)) = 32
  ∧ String.length (generate_article_id self u) = 12
  ∧ all_chars is_hex (generate_article_id self u) = true
  ∧ hashlib.md5_hexdigest (py.encode "abc")
    = "900150983cd24fb0d6963f7d28e17f72"
  ∧ hashlib.md5_hexdigest
      (py.encode "https://www.welt.de/politik/article1/test.html")
    = "593c54e9936b8a20214b5839c9690705"
  ∧ generate_article_id self
      "https://www.welt.de/politik/article1/test.html"
    = "593c54e9936b"
  ∧ generate_article_id self "https://www.welt.de/sport/a" = "947c3817e32c"
  ∧ generate_article_id self
      "https://www.welt.de/politik/article1/test.html"
    ≠ generate_article_id self "https://www.welt.de/sport/a"
  ∧ generate_article_id self
      ("https://www.welt.de/politik/m" ++ String "252"%char "nchen")
    = "e1b9bababca0".
Proof.
  split_and!.
  - reflexivity.
  - reflexivity.
  - apply md5_hexdigest_length.
  - apply generate_article_id_length.
  - unfold generate_article_id. apply take_all_chars, hex_is_hex.
  - vm_compute. reflexivity.
  - vm_compute. reflexivity.
  - vm_compute. reflexivity.
  - vm_compute. reflexivity.
  - vm_compute. discriminate.
  - vm_compute. reflexivity.
Qed.

Lemma format_filename d i :
  py.format "{date}_{id}.json" [("date", d); ("id", i)]
  = d ++ "_" ++ i ++ ".json".
Proof. reflexivity. Qed.

(** C6, as the code has it.  With the repository's configuration the name
    of an article's file is [<date>_<id>.json], where [<id>] is the 12
    character identifier of the record's URL and [<date>] is the first 10
    characters of the record's date, or [unknown] when the record has no
    date or its date is the empty string; [save_article] writes the record
    to that name inside [DATA_DIR]. *)
Theorem article_filename_spec (a : article) (st : state) :
  let id := generate_article_id st (url a) in
  (date a = None ∨ date a = Some EmptyString →
     article_filename config st a = "unknown" ++ "_" ++ id ++ ".json")
  ∧ (∀ d, date a = Some d → d ≠ EmptyString →
       article_filename config st a = py.take 10 d ++ "_" ++ id ++ ".json")
  ∧ String.length id = 12
  ∧ events_since st (save_article config env a st)
    = [EvWrite (os_path_join "data" (article_filename config st a))
         (JsonArticle a)
         (disk_write env (clock st)
            (os_path_join "data" (article_filename config st a)))].
Proof.
  intros id. split_and!.
  - intros [H|H]; unfold article_filename; rewrite H; simpl;
      apply format_filename.
  - intros d H Hd. unfold article_filename. rewrite H.
    destruct d as [|c d]; [done|]. apply format_filename.
  - apply generate_article_id_length.
  - apply events_since_app. unfold save_article. simpl.
    by destruct (disk_write env _ _).
Qed.

(** *** The history of the methods *)

Lemma in_extracted u d : In u (extracted d) ↔ In (EvExtract u) d.
Proof.
  unfold extracted. induction d as [|e d IH]; simpl; [done|].
  destruct e; simpl; rewrite ?IH; try (split; [by right|by intros [?|?]]).
  split; (intros [?|?]; [left; congruence|by right]).
Qed.

Lemma in_marked u d : In u (marked d) ↔ In (EvMark u) d.
Proof.
  unfold marked. induction d as [|e d IH]; simpl; [done|].
  destruct e; simpl; rewrite ?IH; try (split; [by right|by intros [?|?]]).
  split; (intros [?|?]; [left; congruence|by right]).
Qed.

Lemma split_app_event (d1 d2 pre post : list event) e :
  (d1 ++ d2 = pre ++ e :: post)%list →
  (∃ post1, d1 = pre ++ e :: post1 ∧ post = post1 ++ d2)%list
  ∨ (∃ pre2, pre = d1 ++ pre2 ∧ d2 = pre2 ++ e :: post)%list.
Proof.
  revert pre. induction d1 as [|x d1 IH]; intros pre H; simpl in *.
  - right. by exists pre.
  - destruct pre as [|y pre]; simpl in *.
    + injection H as -> <-. left. by exists d1.
    + injection H as -> H. destruct (IH _ H) as [(p1 & -> & ->)|(p2 & -> & ->)].
      * left. by exists p1.
      * right. by exists p2.
Qed.

Lemma disciplined_nil S : disciplined S [].
Proof.
  split_and!; [constructor|by intros ? []|].
  intros [|??] ?? H; discriminate H.
Qed.

(** Events that are neither marks nor extractions can be added in front. *)
Lemma disciplined_app S d1 d2 :
  disciplined S d1 →
  disciplined (S ∪ list_to_set (marked d1)) d2 →
  disciplined S (d1 ++ d2).
Proof.
  intros (N1 & F1 & M1) (N2 & F2 & M2). split_and!.
  - rewrite extracted_app. apply NoDup_app. split_and!; try done.
    intros u H1%list_elem_of_In H2%list_elem_of_In.
    apply (F2 u H2). apply elem_of_union_r, elem_of_list_to_set.
    apply list_elem_of_In, in_marked.
    apply in_extracted, in_split in H1 as (pre & post & ->).
    apply in_or_app. left. eapply M1. reflexivity.
  - intros u. rewrite extracted_app, in_app_iff. intros [H|H]; [by apply F1|].
    intros Hin. apply (F2 u H). by apply elem_of_union_l.
  - intros pre u post H.
    apply split_app_event in H as [(p1 & -> & ->)|(p2 & -> & ->)].
    + eapply M1. reflexivity.
    + apply in_or_app. right. eapply M2. reflexivity.
Qed.

Lemma disciplined_quiet S d :
  extracted d = [] → disciplined S d.
Proof.
  intros H. split_and!.
  - rewrite H. constructor.
  - rewrite H. by intros ? [].
  - intros pre u post ->. rewrite extracted_app in H.
    apply app_eq_nil in H as [_ H]. discriminate H.
Qed.

Lemma run_of_events st st' d : run_of d st st' → events_since st st' = d.
Proof. intros (H & _). by apply events_since_app. Qed.

(** [extract_article_content] announces the extraction and then only talks
    to the network. *)
Lemma extract_article_content_run u st :
  ∃ d, forallb is_net d = true
       ∧ run_of (EvExtract u :: d) st
           (snd (extract_article_content cfg env u st)).
Proof.
  unfold extract_article_content.
  destruct (get_page_run u 0 (log (EvExtract u) st)) as (d & Hd & Hrun).
  exists d. split; [done|].
  assert (run_of ([EvExtract u] ++ d) st
            (snd (get_page cfg env u 0 (log (EvExtract u) st)))) as H.
  { eapply run_of_trans; [|exact Hrun]. by apply run_of_log. }
  destruct (get_page cfg env u 0 (log (EvExtract u) st)) as [[html|] st1];
    [|exact H].
  simpl in H. by destruct (_ || _).
Qed.

Lemma save_article_run a st :
  ∃ path ok,
    path = os_path_join (DATA_DIR cfg) (article_filename cfg st a)
    ∧ ok = disk_write env (clock st) path
    ∧ run_of [EvWrite path (JsonArticle a) ok] st (save_article cfg env a st).
Proof.
  eexists _, _. split_and!; try reflexivity.
  unfold save_article, run_of, successful_saves, marked.
  destruct (disk_write env _ _); simpl; rewrite ?app_nil_r;
    split_and!; try done; by rewrite (right_id_L ∅ (∪)).
Qed.

(** The events of one iteration of the loop of [scrape_category]: one
    extraction, and at most one write of an article file. *)
Lemma extract_and_save_run u st :
  ∃ d, run_of (EvExtract u :: d) st (snd (extract_and_save cfg env u st))
       ∧ extracted d = [] ∧ marked d = []
       ∧ List.length (article_writes d)
         = (if fst (extract_and_save cfg env u st) then 1 else 0)
       ∧ List.filter is_write d = article_writes d.
Proof.
  unfold extract_and_save.
  destruct (extract_article_content_run u st) as (d & Hd & Hrun).
  destruct (extract_article_content cfg env u st) as [[a|] st1]; simpl in *.
  - destruct (save_article_run a st1) as (path & ok & _ & _ & Hs).
    exists (d ++ [EvWrite path (JsonArticle a) ok])%list. split_and!.
    + by apply (run_of_trans (_ :: _) [_] _ st1).
    + rewrite extracted_app, net_extracted; done.
    + rewrite marked_app, net_marked; done.
    + by rewrite article_writes_app, (net_article_writes _ Hd).
    + by rewrite article_writes_app, List.filter_app,
        (net_article_writes _ Hd), (net_writes _ Hd).
  - exists d. split_and!; try done.
    + by apply net_extracted.
    + by apply net_marked.
    + by rewrite (net_article_writes _ Hd).
    + by rewrite (net_article_writes _ Hd), (net_writes _ Hd).
Qed.

Lemma disciplined_iteration S u d :
  u ∉ S → extracted d = [] → disciplined S (EvMark u :: EvExtract u :: d).
Proof.
  intros Hu Hd.
  assert (extracted (EvMark u :: EvExtract u :: d) = [u]) as Hx.
  { change (EvMark u :: EvExtract u :: d) with ([EvMark u; EvExtract u] ++ d)%list.
    by rewrite extracted_app, Hd. }
  split_and!.
  - rewrite Hx. apply NoDup_singleton.
  - rewrite Hx. by intros v [<-|[]].
  - intros pre v post H.
    assert (In v [u]) as [<-|[]].
    { rewrite <- Hx, in_extracted, H. apply in_elt. }
    destruct pre as [|e pre]; simpl in H; [discriminate H|].
    injection H as <- _. by left.
Qed.

Lemma run_of_mark u st : run_of [EvMark u] st (mark_scraped u st).
Proof.
  unfold run_of, mark_scraped, successful_saves, marked. simpl.
  rewrite app_nil_r. split_and!; try done.
  by rewrite (right_id_L ∅ (∪)).
Qed.

Lemma successful_saves_le_writes d :
  List.length (successful_saves d) ≤ List.length (article_writes d).
Proof.
  unfold successful_saves, article_writes.
  induction d as [|e d IH]; [done|].
  destruct e as [| | |? [] []| |]; cbn in *; lia.
Qed.

(** The loop of [scrape_category], from any value of [count]. *)
Lemma scrape_links_run max_articles links :
  ∀ count st,
  ∃ d, run_of d st (scrape_links cfg env max_articles links count st)
       ∧ List.length (article_writes d) ≤ max_articles - count
       ∧ List.filter is_write d = article_writes d
       ∧ disciplined (scraped_urls st) d.
Proof.
  induction links as [|u rest IH]; intros count st; simpl.
  { exists []. split_and!; [apply run_of_refl|simpl; lia|done|].
    apply disciplined_nil. }
  destruct (max_articles <=? count) eqn:Hmax.
  { exists []. split_and!; [apply run_of_refl|simpl; lia|done|].
    apply disciplined_nil. }
  apply Nat.leb_gt in Hmax.
  destruct (bool_decide (u ∈ scraped_urls st)) eqn:Hin; [apply IH|].
  apply bool_decide_eq_false in Hin.
  pose proof (run_of_mark u st) as Hmark.
  destruct (extract_and_save_run u (mark_scraped u st))
    as (d2 & Hrun2 & Hx2 & Hm2 & Hw2 & Hf2).
  destruct (extract_and_save cfg env u (mark_scraped u st)) as [saved st2].
  simpl in Hrun2, Hw2.
  set (count' := if saved then S count else count).
  assert (run_of [EvSleep (REQUEST_DELAY cfg)] st2
            (sleep (REQUEST_DELAY cfg) st2)) as Hsleep
    by (by apply run_of_log).
  destruct (IH count' (sleep (REQUEST_DELAY cfg) st2))
    as (d3 & Hrun3 & Hw3 & Hf3 & Hd3).
  set (d1 := (EvMark u :: EvExtract u :: d2 ++ [EvSleep (REQUEST_DELAY cfg)])%list).
  assert (run_of d1 st (sleep (REQUEST_DELAY cfg) st2)) as Hrun1.
  { apply (run_of_trans [_] (EvExtract u :: d2 ++ [_]) _ _ _ Hmark).
    by apply (run_of_trans (_ :: _) [_] _ st2). }
  exists (d1 ++ d3)%list. split_and!.
  - by apply (run_of_trans _ _ _ _ _ Hrun1).
  - rewrite article_writes_app, length_app. unfold d1.
    change (EvMark u :: EvExtract u :: d2 ++ [EvSleep (REQUEST_DELAY cfg)])%list
      with ([EvMark u; EvExtract u] ++ d2 ++ [EvSleep (REQUEST_DELAY cfg)])%list.
    rewrite !article_writes_app, !length_app. simpl.
    unfold count' in Hw3. destruct saved; lia.
  - rewrite article_writes_app, List.filter_app, Hf3. f_equal. unfold d1.
    change (EvMark u :: EvExtract u :: d2 ++ [EvSleep (REQUEST_DELAY cfg)])%list
      with ([EvMark u; EvExtract u] ++ d2 ++ [EvSleep (REQUEST_DELAY cfg)])%list.
    by rewrite !article_writes_app, !List.filter_app, Hf2.
  - apply disciplined_app.
    + apply disciplined_iteration; [done|].
      by rewrite extracted_app, Hx2.
    + destruct Hrun1 as (_ & _ & <-). exact Hd3.
Qed.

Lemma scrape_category_run category_url max_articles st :
  ∃ d, run_of d st (snd (scrape_category cfg env category_url max_articles st))
       ∧ List.length (article_writes d) ≤ max_articles
       ∧ List.filter is_write d = article_writes d
       ∧ disciplined (scraped_urls st) d.
Proof.
  unfold scrape_category.
  destruct (get_page_run category_url 0 st) as (d0 & Hd0 & Hrun0).
  destruct (get_page cfg env category_url 0 st) as [[html|] st0];
    simpl in Hrun0.
  - destruct (extract_article_links cfg env (lxml env html) category_url st0)
      as [article_links|]; simpl.
    + destruct (scrape_links_run max_articles
                  (set_iter env article_links) 0 st0)
        as (d & Hrun & Hw & Hf & Hd).
      exists (d0 ++ d)%list. split_and!.
      * by apply (run_of_trans _ _ _ st0).
      * rewrite article_writes_app, length_app, net_article_writes by done.
        simpl. lia.
      * by rewrite article_writes_app, List.filter_app, Hf, (net_writes _ Hd0),
          (net_article_writes _ Hd0).
      * apply disciplined_app; [by apply disciplined_quiet, net_extracted|].
        destruct Hrun0 as (_ & _ & <-). exact Hd.
    + exists d0. split_and!; try done.
      * rewrite net_article_writes by done. simpl. lia.
      * by rewrite (net_writes _ Hd0), (net_article_writes _ Hd0).
      * by apply disciplined_quiet, net_extracted.
  - exists d0. simpl. split_and!; try done.
    + rewrite net_article_writes by done. simpl. lia.
    + by rewrite (net_writes _ Hd0), (net_article_writes _ Hd0).
    + by apply disciplined_quiet, net_extracted.
Qed.

Lemma scrape_links_stops max_articles links k st :
  scrape_links cfg env max_articles links (max_articles + k) st = st.
Proof.
  destruct links as [|u rest]; simpl; [done|].
  by rewrite (proj2 (Nat.leb_le _ _)) by lia.
Qed.

Lemma scrape_categories_run category_urls :
  ∀ total st,
  ∃ d, run_of d st (snd (scrape_categories cfg env category_urls total st))
       ∧ (∀ n, fst (scrape_categories cfg env category_urls total st)
               = Returned n →
               n = total + List.length (successful_saves d))
       ∧ List.length (article_writes d)
         ≤ List.length category_urls * MAX_ARTICLES_PER_CATEGORY cfg
       ∧ List.filter is_write d = article_writes d
       ∧ disciplined (scraped_urls st) d.
Proof.
  induction category_urls as [|c rest IH]; intros total st; simpl.
  { exists []. split_and!; [apply run_of_refl| |simpl; lia|done|].
    - intros n [= <-]. simpl. lia.
    - apply disciplined_nil. }
  destruct (scrape_category_run c (MAX_ARTICLES_PER_CATEGORY cfg) st)
    as (d1 & Hrun1 & Hw1 & Hf1 & Hd1).
  destruct (scrape_category cfg env c (MAX_ARTICLES_PER_CATEGORY cfg) st)
    as [[[]|] st1]; simpl in Hrun1.
  - destruct (IH (total + (List.length (articles st1) - List.length (articles st)))
                st1) as (d2 & Hrun2 & Htot & Hw2 & Hf2 & Hd2).
    exists (d1 ++ d2)%list. split_and!.
    + by apply (run_of_trans _ _ _ st1).
    + intros n Hn. rewrite (Htot n Hn), successful_saves_app, length_app.
      destruct Hrun1 as (_ & -> & _). rewrite length_app. lia.
    + rewrite article_writes_app, length_app. lia.
    + by rewrite article_writes_app, List.filter_app, Hf1, Hf2.
    + apply disciplined_app; [done|].
      destruct Hrun1 as (_ & _ & <-). exact Hd2.
  - exists d1. simpl. split_and!; [done|discriminate|lia|done|done].
Qed.

Lemma scrape_all_run st :
  ∃ d, match fst (scrape_all cfg env st) with
       | Returned total =>
           total = List.length (successful_saves d)
           ∧ trace (snd (scrape_all cfg env st))
             = (trace st ++ EvMakedirs (DATA_DIR cfg) :: d
                ++ [EvWrite (COMBINED_OUTPUT cfg)
                      (JsonArray (articles st ++ successful_saves d))
                      (disk_write env (S (clock st + List.length d))
                         (COMBINED_OUTPUT cfg))])%list
       | Raised =>
           trace (snd (scrape_all cfg env st))
           = (trace st ++ EvMakedirs (DATA_DIR cfg) :: d)%list
       end
       ∧ articles (snd (scrape_all cfg env st))
         = (articles st ++ successful_saves d)%list
       ∧ scraped_urls (snd (scrape_all cfg env st))
         = scraped_urls st ∪ list_to_set (marked d)
       ∧ List.length (article_writes d)
         ≤ List.length (CATEGORY_URLS cfg) * MAX_ARTICLES_PER_CATEGORY cfg
       ∧ List.filter is_write d = article_writes d
       ∧ disciplined (scraped_urls st) d.
Proof.
  unfold scrape_all.
  destruct (scrape_categories_run (CATEGORY_URLS cfg) 0
              (log (EvMakedirs (DATA_DIR cfg)) st))
    as (d & (Ht & Ha & Hs) & Htot & Hw & Hf & Hd).
  destruct (scrape_categories cfg env (CATEGORY_URLS cfg) 0
              (log (EvMakedirs (DATA_DIR cfg)) st)) as [[total|] st1].
  - simpl in *. exists d. unfold clock. rewrite Ht, Ha, Hs.
    rewrite !length_app, <- !app_assoc. simpl.
    replace (List.length (trace st) + 1 + List.length d)
      with (S (List.length (trace st) + List.length d)) by lia.
    split_and!; try done. by apply Htot.
  - simpl in *. exists d. rewrite Ht, Ha, Hs, <- !app_assoc. simpl.
    split_and!; done.
Qed.

(** C7.  Whether it returns or raises, [scrape_category] attempts to write
    at most [max_articles] article files, so it saves at most
    [max_articles] records, whatever the page links to; once [count] has
    reached [max_articles] the loop stops without touching the remaining
    links.  A run calls it with [MAX_ARTICLES_PER_CATEGORY] for every
    category. *)
Theorem scrape_category_cap (category_url : string) (max_articles : nat)
    (st : state) :
  let st' := snd (scrape_category cfg env category_url max_articles st) in
  List.length (article_writes (events_since st st')) ≤ max_articles
  ∧ List.length (successful_saves (events_since st st')) ≤ max_articles
  ∧ List.length (articles st') ≤ List.length (articles st) + max_articles
  ∧ (∀ links k st0,
       scrape_links cfg env max_articles links (max_articles + k) st0 = st0)
  ∧ List.length (articles (snd (scrape_all cfg env init)))
    ≤ List.length (CATEGORY_URLS cfg) * MAX_ARTICLES_PER_CATEGORY cfg.
Proof.
  intros st'. subst st'.
  destruct (scrape_category_run category_url max_articles st)
    as (d & Hrun & Hw & _ & _).
  rewrite (run_of_events _ _ _ Hrun).
  pose proof (successful_saves_le_writes d) as Hle.
  split_and!; [done|lia| | |].
  - destruct Hrun as (_ & Ha & _). rewrite Ha, length_app. lia.
  - intros. apply scrape_links_stops.
  - destruct (scrape_all_run init) as (d' & _ & Ha & _ & Hw' & _).
    rewrite Ha. simpl.
    pose proof (successful_saves_le_writes d'). lia.
Qed.

(** C4.  At the end of a run that returns, [save_all_articles] writes the
    list of the records whose own file was written successfully during the
    run, in that order, so the array has as many elements as there were
    successful saves (and [scrape_all] returns that number); a run that
    raises ends before that write, with the same records collected.
    [save_article] appends the record to the collection when its write
    succeeds and leaves the collection as it was when the write fails. *)
Theorem save_all_articles_length :
  (∃ d, match fst (scrape_all cfg env init) with
        | Returned total =>
            trace (snd (scrape_all cfg env init))
            = (EvMakedirs (DATA_DIR cfg) :: d
               ++ [EvWrite (COMBINED_OUTPUT cfg)
                     (JsonArray (successful_saves d))
                     (disk_write env (S (List.length d))
                        (COMBINED_OUTPUT cfg))])%list
            ∧ total = List.length (successful_saves d)
        | Raised =>
            trace (snd (scrape_all cfg env init))
            = EvMakedirs (DATA_DIR cfg) :: d
        end
        ∧ List.filter is_write d = article_writes d
        ∧ articles (snd (scrape_all cfg env init)) = successful_saves d)
  ∧ (∀ a st,
       let path := os_path_join (DATA_DIR cfg) (article_filename cfg st a) in
       articles (save_article cfg env a st)
       = if disk_write env (clock st) path
         then (articles st ++ [a])%list else articles st)
  ∧ (∀ a st,
       let path := os_path_join (DATA_DIR cfg) (article_filename cfg st a) in
       successful_saves (events_since st (save_article cfg env a st))
       = if disk_write env (clock st) path then [a] else []).
Proof.
  split_and!.
  - destruct (scrape_all_run init) as (d & Ht & Ha & _ & _ & Hf & _).
    exists d. simpl in *.
    destruct (fst (scrape_all cfg env init)); split_and!; try done;
      by destruct Ht.
  - intros a st path. unfold save_article. fold path.
    by destruct (disk_write env (clock st) path).
  - intros a st path.
    destruct (save_article_run a st) as (p & ok & -> & -> & Hrun).
    rewrite (run_of_events _ _ _ Hrun). fold path.
    by destruct (disk_write env (clock st) path).
Qed.

(** C10.  During [scrape_category], and during a whole run, whether they
    return or raise, the scraped set only grows; every extraction of a URL
    comes after the URL was added to the set, so the URL is in the set
    afterwards whether or not its fetch or extraction succeeded; a URL that
    was in the set when a category started is not extracted again, and no
    URL is extracted twice. *)
Theorem scraped_urls_discipline :
  (∀ category_url max_articles st,
     let st' := snd (scrape_category cfg env category_url max_articles st) in
     let d := events_since st st' in
     scraped_urls st ⊆ scraped_urls st'
     ∧ (∀ pre u post, d = (pre ++ EvExtract u :: post)%list →
          In (EvMark u) pre ∧ u ∈ scraped_urls st')
     ∧ (∀ u, u ∈ scraped_urls st → ¬ In (EvExtract u) d)
     ∧ NoDup (extracted d))
  ∧ (let st' := snd (scrape_all cfg env init) in
     (∀ pre u post, trace st' = (pre ++ EvExtract u :: post)%list →
        In (EvMark u) pre ∧ u ∈ scraped_urls st')
     ∧ NoDup (extracted (trace st')))
  ∧ (∀ u st, scraped_urls st ⊆ scraped_urls (mark_scraped u st)
             ∧ u ∈ scraped_urls (mark_scraped u st))
  ∧ (∀ u st, scraped_urls (snd (extract_and_save cfg env u st))
             = scraped_urls st).
Proof.
  split_and!.
  - intros category_url max_articles st st' d.
    destruct (scrape_category_run category_url max_articles st)
      as (d' & Hrun & _ & _ & (N & F & M)).
    fold st' in Hrun. subst d. rewrite (run_of_events _ _ _ Hrun).
    destruct Hrun as (_ & _ & Hs). split_and!.
    + rewrite Hs. apply union_subseteq_l.
    + intros pre u post ->. split; [eapply M; reflexivity|].
      rewrite Hs. apply elem_of_union_r, elem_of_list_to_set.
      apply list_elem_of_In, in_marked, in_or_app. left.
      eapply M. reflexivity.
    + intros u Hu Hin. by apply (F u); [apply in_extracted|].
    + exact N.
  - intros st'.
    destruct (scrape_all_run init) as (d & Ht & _ & Hs & _ & _ & (N & F & M)).
    fold st' in Ht, Hs. simpl in Ht.
    assert (∃ tl, trace st' = (EvMakedirs (DATA_DIR cfg) :: d ++ tl)%list
                  ∧ ∀ pre u post, tl ≠ (pre ++ EvExtract u :: post)%list)
      as (tl & Ht' & Htl).
    { destruct (fst (scrape_all cfg env init)).
      - destruct Ht as [_ Ht]. eexists. split; [exact Ht|].
        intros [|? [|? ?]] ? ?; simpl; congruence.
      - exists []. rewrite app_nil_r. split; [done|].
        intros [|? ?] ? ?; simpl; congruence. }
    clear Ht.
    assert (∀ pre u post, trace st' = (pre ++ EvExtract u :: post)%list →
              In (EvMark u) pre) as Hmark.
    { intros pre u post H. rewrite Ht' in H.
      destruct pre as [|e pre]; simpl in H; [discriminate H|].
      injection H as <- H. right.
      apply split_app_event in H as [(p1 & H & _)|(p2 & _ & H)].
      - eapply M. exact H.
      - by apply Htl in H. }
    assert (extracted tl = []) as Hxtl.
    { destruct (extracted tl) as [|u ?] eqn:Hx; [done|].
      assert (In (EvExtract u) tl) as Hin
        by (apply in_extracted; rewrite Hx; by left).
      apply in_split in Hin as (pre & post & Hin). by apply Htl in Hin. }
    split.
    + intros pre u post H. split; [by eapply Hmark|].
      rewrite Hs. apply elem_of_union_r, elem_of_list_to_set.
      apply list_elem_of_In, in_marked.
      pose proof (Hmark _ _ _ H) as Hin.
      apply in_split in Hin as (p1 & p2 & ->).
      rewrite Ht' in H.
      destruct p1 as [|e p1]; simpl in H; [discriminate H|].
      injection H as <- H. rewrite <- app_assoc in H. simpl in H.
      apply split_app_event in H as [(q & H & _)|(q & _ & H)].
      * rewrite H. apply in_or_app. right. by left.
      * exfalso. apply (Htl (q ++ EvMark u :: p2)%list u post).
        by rewrite H, <- app_assoc.
    + rewrite Ht'.
      change (EvMakedirs (DATA_DIR cfg) :: d ++ tl)%list
        with ([EvMakedirs (DATA_DIR cfg)] ++ d ++ tl)%list.
      rewrite !extracted_app, Hxtl. simpl. by rewrite app_nil_r.
  - intros u st. simpl. split; [apply union_subseteq_l|].
    apply elem_of_union_r. by apply elem_of_singleton.
  - intros u st.
    destruct (extract_and_save_run u st) as (d & (_ & _ & Hs) & _ & Hm & _).
    rewrite Hs. change (EvExtract u :: d) with ([EvExtract u] ++ d)%list.
    rewrite marked_app, Hm. simpl. by rewrite (right_id_L ∅ (∪)).
Qed.

(** *** The extraction of one page *)

Lemma extract_article_content_result u st html st1 :
  get_page cfg env u 0 (log (EvExtract u) st) = (Some html, st1) →
  extract_article_content cfg env u st
  = (if py.truthy_opt (extract_title (lxml env html))
        && py.truthy_opt (extract_text (lxml env html))
     then Some (article_of env u (now env (clock st1)) (lxml env html))
     else None, st1).
Proof.
  intros H. unfold extract_article_content. rewrite H. simpl.
  by destruct (py.truthy_opt (extract_title _)),
       (py.truthy_opt (extract_text _)).
Qed.

Lemma get_page_date_parse f u retries st :
  get_page cfg (with_date_parse f env) u retries st
  = get_page cfg env u retries st.
Proof.
  funelim (get_page cfg env u retries st);
    rewrite get_page_equation_1; simpl;
    match goal with H : http_get env _ _ = _ |- _ => rewrite H end; simpl.
  - reflexivity.
  - match goal with H : lt_dec _ _ = _ |- _ => rewrite H end. simpl. auto.
  - match goal with H : lt_dec _ _ = _ |- _ => rewrite H end. reflexivity.
Qed.

Lemma no_paragraph_text body :
  (∀ p, In p (bs4.find_all (bs4.is_tag "p") body) → bs4.get_text p = EmptyString) →
  List.filter (λ p, py.truthy (bs4.get_text p))
    (bs4.find_all (bs4.is_tag "p") body) = [].
Proof.
  generalize (bs4.find_all (bs4.is_tag "p") body). intros ps H.
  induction ps as [|p ps IH]; [done|]. simpl.
  rewrite (H p) by (by left). simpl. apply IH. intros q Hq. apply H. by right.
Qed.

(** C1, as the code has it.  For a page that was fetched, a record is saved
    exactly when the extracted title and text are both non-empty and the
    write of the record's file succeeds.  When the title or the text is
    empty, the extraction returns [None] and nothing at all is written; this
    is the case of a page whose content container has no paragraph with
    text. *)
Theorem persisted_iff_valid_and_written (u : string) (st : state)
    (html : string) (st1 : state) :
  get_page cfg env u 0 (log (EvExtract u) st) = (Some html, st1) →
  let soup := lxml env html in
  let a := article_of env u (now env (clock st1)) soup in
  let path := os_path_join (DATA_DIR cfg) (article_filename cfg st1 a) in
  let st' := snd (extract_and_save cfg env u st) in
  let d := events_since st st' in
  let valid :=
    py.truthy_opt (extract_title soup) = true
    ∧ py.truthy_opt (extract_text soup) = true in
  (fst (extract_article_content cfg env u st) ≠ None ↔ valid)
  ∧ (successful_saves d ≠ [] ↔ valid ∧ disk_write env (clock st1) path = true)
  ∧ (valid → disk_write env (clock st1) path = true →
       successful_saves d = [a] ∧ articles st' = (articles st ++ [a])%list)
  ∧ (¬ valid →
       fst (extract_article_content cfg env u st) = None
       ∧ List.filter is_write d = [] ∧ articles st' = articles st)
  ∧ (∀ body,
       find_article_body soup = Some body →
       (∀ p, In p (bs4.find_all (bs4.is_tag "p") body) → bs4.get_text p = EmptyString) →
       fst (extract_article_content cfg env u st) = None
       ∧ List.filter is_write d = [] ∧ articles st' = articles st).
Proof.
  intros Hget soup a path st' d valid.
  pose proof (extract_article_content_result u st html st1 Hget) as Hres.
  fold soup in Hres. fold a in Hres.
  destruct (get_page_run u 0 (log (EvExtract u) st)) as (d0 & Hd0 & Hrun0).
  rewrite Hget in Hrun0. simpl in Hrun0.
  assert (run_of ([EvExtract u] ++ d0) st st1) as Hrun1.
  { eapply run_of_trans; [|exact Hrun0]. by apply run_of_log. }
  assert (successful_saves ([EvExtract u] ++ d0) = []) as Hs1
    by (by rewrite successful_saves_app, (net_saves _ Hd0)).
  assert (List.filter is_write ([EvExtract u] ++ d0) = []) as Hw1
    by (by rewrite List.filter_app, (net_writes _ Hd0)).
  remember ([EvExtract u] ++ d0)%list as d1 eqn:Hd1.
  assert (¬ valid →
          fst (extract_article_content cfg env u st) = None
          ∧ List.filter is_write d = [] ∧ articles st' = articles st) as Hinvalid.
  { intros Hnv. subst d st'. unfold extract_and_save. rewrite Hres.
    destruct (py.truthy_opt (extract_title soup)) eqn:Ht,
             (py.truthy_opt (extract_text soup)) eqn:Hx;
      try (exfalso; apply Hnv; by split).
    all: cbn [andb fst snd].
    all: rewrite (run_of_events _ _ _ Hrun1), Hw1.
    all: destruct Hrun1 as (_ & -> & _).
    all: by rewrite Hs1, app_nil_r. }
  assert (valid →
          fst (extract_article_content cfg env u st) = Some a
          ∧ successful_saves d
            = (if disk_write env (clock st1) path then [a] else [])
          ∧ articles st'
            = (articles st
               ++ (if disk_write env (clock st1) path then [a] else []))%list)
    as Hvalid.
  { intros [Ht Hx]. subst d st'. unfold extract_and_save. rewrite Hres.
    rewrite Ht, Hx. cbn [andb fst snd].
    destruct (save_article_run a st1) as (p & ok & -> & -> & Hrun2).
    fold path in Hrun2.
    pose proof (run_of_trans _ _ _ _ _ Hrun1 Hrun2) as Hrun.
    rewrite (run_of_events _ _ _ Hrun).
    destruct Hrun as (_ & -> & _).
    rewrite !successful_saves_app, Hs1.
    by destruct (disk_write env (clock st1) path). }
  assert (valid ∨ ¬ valid) as Hdec.
  { unfold valid.
    destruct (py.truthy_opt (extract_title soup)),
             (py.truthy_opt (extract_text soup));
      [by left; split|right; intros [? ?]; discriminate..]. }
  split_and!.
  - split.
    + intros Hne. destruct Hdec as [?|Hnv]; [done|].
      by destruct (Hinvalid Hnv) as (? & _).
    + intros Hv. destruct (Hvalid Hv) as (-> & _). done.
  - split.
    + intros Hne. destruct Hdec as [Hv|Hnv].
      * split; [done|]. destruct (Hvalid Hv) as (_ & Hs & _).
        rewrite Hs in Hne. by destruct (disk_write env (clock st1) path).
      * exfalso. apply Hne. clear Hne Hvalid Hinvalid.
        subst d st'. unfold extract_and_save. rewrite Hres.
        destruct (py.truthy_opt (extract_title soup)) eqn:Ht,
                 (py.truthy_opt (extract_text soup)) eqn:Hx;
          try (exfalso; apply Hnv; by split).
        all: cbn [andb fst snd].
        all: by rewrite (run_of_events _ _ _ Hrun1).
    + intros [Hv Hok]. destruct (Hvalid Hv) as (_ & -> & _). by rewrite Hok.
  - intros Hv Hok. destruct (Hvalid Hv) as (_ & -> & ->). by rewrite Hok.
  - exact Hinvalid.
  - intros body Hbody Hps. apply Hinvalid. intros [_ Hx].
    unfold extract_text in Hx. rewrite Hbody in Hx.
    rewrite (no_paragraph_text body Hps) in Hx. discriminate Hx.
Qed.

(** C9.  When the page has a date element and the date parser fails on
    its raw string, the date of the extracted record is that raw string,
    unchanged.  The failure does not abort the extraction: a record is
    returned exactly when the title and the text are non-empty, its other
    fields are what the page gives, and with any other date parser the
    extraction returns the same record up to its date. *)
Theorem unparseable_date_kept (u : string) (st : state) (html : string)
    (st1 : state) (date_tag : bs4.node) :
  get_page cfg env u 0 (log (EvExtract u) st) = (Some html, st1) →
  find_date_tag (lxml env html) = Some date_tag →
  date_parse env (raw_date date_tag) = None →
  let soup := lxml env html in
  let r := fst (extract_article_content cfg env u st) in
  extract_date env soup = Some (raw_date date_tag)
  ∧ (∀ a, r = Some a → date a = Some (raw_date date_tag))
  ∧ (r ≠ None ↔ py.truthy_opt (extract_title soup) = true
                 ∧ py.truthy_opt (extract_text soup) = true)
  ∧ (∀ a, r = Some a →
       title a = extract_title soup ∧ text a = extract_text soup
       ∧ author a = extract_author soup
       ∧ category a = extract_category env u soup)
  ∧ (∀ f, without_date
            <$> fst (extract_article_content cfg (with_date_parse f env) u st)
          = without_date <$> r).
Proof.
  intros Hget Htag Hparse soup r.
  assert (extract_date env soup = Some (raw_date date_tag)) as Hdate.
  { unfold extract_date. fold soup in Htag. by rewrite Htag, Hparse. }
  pose proof (extract_article_content_result u st html st1 Hget) as Hres.
  fold soup in Hres.
  assert (r = if py.truthy_opt (extract_title soup)
                 && py.truthy_opt (extract_text soup)
              then Some (article_of env u (now env (clock st1)) soup)
              else None) as Hr by (unfold r; by rewrite Hres).
  split_and!.
  - exact Hdate.
  - intros a Ha. rewrite Hr in Ha. destruct (_ && _); [|discriminate Ha].
    injection Ha as <-. exact Hdate.
  - rewrite Hr.
    destruct (py.truthy_opt (extract_title soup)),
             (py.truthy_opt (extract_text soup)); simpl;
      split; try done; intros [? ?]; discriminate.
  - intros a Ha. rewrite Hr in Ha. destruct (_ && _); [|discriminate Ha].
    by injection Ha as <-.
  - intros f. rewrite Hr. unfold extract_article_content.
    rewrite get_page_date_parse, Hget. subst soup. simpl.
    destruct (py.truthy_opt (extract_title (lxml env html))),
      (py.truthy_opt (extract_text (lxml env html))); reflexivity.
Qed.

Lemma get_text_single nm attrs s :
  bs4.get_text (bs4.Tag nm attrs [bs4.Text s]) = py.strip s.
Proof.
  unfold bs4.get_text. simpl.
  destruct (py.truthy (py.strip s)) eqn:H; simpl; [done|].
  unfold py.truthy in H. apply negb_false_iff, String.eqb_eq in H. by rewrite H.
Qed.

Lemma find_all_paragraphs nm attrs paras :
  bs4.find_all (bs4.is_tag "p") (bs4.Tag nm attrs (List.map paragraph paras))
  = List.map paragraph paras.
Proof.
  unfold bs4.find_all. simpl.
  induction paras as [|s paras IH]; [done|]. simpl. by rewrite IH.
Qed.

Lemma paragraph_texts paras :
  List.map bs4.get_text
    (List.filter (λ p, py.truthy (bs4.get_text p)) (List.map paragraph paras))
  = List.filter py.truthy (List.map py.strip paras).
Proof.
  induction paras as [|s paras IH]; [done|]. simpl.
  unfold paragraph at 1. rewrite get_text_single.
  destruct (py.truthy (py.strip s)); simpl; rewrite IH; [|done].
  unfold paragraph. by rewrite get_text_single.
Qed.

Lemma find_first p soup x : first_match p soup x → bs4.find p soup = Some x.
Proof.
  intros (pre & post & Hd & Hx & Hpre). unfold bs4.find, bs4.find_all.
  rewrite Hd, List.filter_app. simpl. rewrite Hx.
  assert (List.filter p pre = []) as ->; [|done].
  clear Hd. induction pre as [|y pre IH]; [done|]. simpl.
  rewrite (Hpre y) by (by left). apply IH. intros z Hz. apply Hpre. by right.
Qed.

Lemma find_none p soup : no_match p soup → bs4.find p soup = None.
Proof.
  unfold no_match, bs4.find, bs4.find_all. intros H.
  assert (List.filter p (bs4.descendants soup) = []) as ->; [|done].
  induction (bs4.descendants soup) as [|y l IH]; [done|]. simpl.
  rewrite (H y) by (by left). apply IH. intros z Hz. apply H. by right.
Qed.

Lemma map_filter_truthy {A} (f : A → string) (l : list A) :
  List.map f (List.filter (λ x, py.truthy (f x)) l)
  = List.filter py.truthy (List.map f l).
Proof.
  induction l as [|x l IH]; [done|]. simpl.
  destruct (py.truthy (f x)); simpl; by rewrite IH.
Qed.

Lemma extract_text_of_body soup body :
  find_article_body soup = Some body →
  extract_text soup
  = Some (py.join (String "010"%char (String "010"%char EmptyString))
            (List.filter py.truthy
               (List.map bs4.get_text
                  (List.filter (bs4.is_tag "p") (bs4.descendants body))))).
Proof.
  intros H. unfold extract_text. rewrite H.
  by rewrite map_filter_truthy.
Qed.

(** C5, as the code has it.  From the page [<h1>Title</h1><article>
    <p>Hello</p><p>World</p></article>] the extractor returns a record with
    the title [Title] and the text [Hello], two line feeds, [World].  On
    every page the title is the text of the first level-1 heading in
    document order, or of the first title element when the page has no
    such heading, or absent; the content container is the first [article]
    element, or without one the first [div] whose class matches; and the
    text is made of all the paragraph elements below the container, at any
    depth: each one gives the concatenation, without separator, of its text
    nodes individually stripped, the empty results are dropped and the
    others joined by two line feeds.  A paragraph that holds one text node
    gives that text stripped, so a container of such paragraphs gives them
    stripped, without the empty ones, joined by two line feeds; the
    paragraph [<p>Hello <b>big</b> World</p>] gives [HellobigWorld]. *)
Theorem extractor_scenario :
  (∀ u st html st1,
     get_page cfg env u 0 (log (EvExtract u) st) = (Some html, st1) →
     lxml env html = hello_world_page →
     ∃ a, fst (extract_article_content cfg env u st) = Some a
          ∧ title a = Some "Title"
          ∧ text a
            = Some ("Hello" ++ String "010"%char (String "010"%char "World")))
  ∧ hello_world_page
    = bs4.Tag "[document]" []
        [bs4.Tag "html" []
           [bs4.Tag "body" []
              [bs4.Tag "h1" [] [bs4.Text "Title"];
               bs4.Tag "article" []
                 [bs4.Tag "p" [] [bs4.Text "Hello"];
                  bs4.Tag "p" [] [bs4.Text "World"]]]]]
  ∧ (∀ soup h, first_match (bs4.is_tag "h1") soup h →
       extract_title soup = Some (bs4.get_text h))
  ∧ (∀ soup t, no_match (bs4.is_tag "h1") soup →
       first_match (bs4.is_tag "title") soup t →
       extract_title soup = Some (bs4.get_text t))
  ∧ (∀ soup, no_match (bs4.is_tag "h1") soup →
       no_match (bs4.is_tag "title") soup →
       extract_title soup = None)
  ∧ (∀ soup body,
       first_match (bs4.is_tag "article") soup body
       ∨ (no_match (bs4.is_tag "article") soup
          ∧ first_match (λ n, bs4.is_tag "div" n
                              && bs4.class_matches body_class n) soup body) →
       extract_text soup
       = Some (py.join (String "010"%char (String "010"%char EmptyString))
                 (List.filter py.truthy
                    (List.map bs4.get_text
                       (List.filter (bs4.is_tag "p")
                          (bs4.descendants body))))))
  ∧ (∀ soup, no_match (bs4.is_tag "article") soup →
       no_match (λ n, bs4.is_tag "div" n
                      && bs4.class_matches body_class n) soup →
       extract_text soup = None)
  ∧ (∀ nm attrs cs,
       bs4.get_text (bs4.Tag nm attrs cs)
       = py.join EmptyString
           (List.filter py.truthy
              (List.map py.strip (List.flat_map bs4.strings cs))))
  ∧ (∀ nm attrs s, bs4.get_text (bs4.Tag nm attrs [bs4.Text s]) = py.strip s)
  ∧ bs4.get_text
      (bs4.Tag "p" []
         [bs4.Text "Hello "; bs4.Tag "b" [] [bs4.Text "big"];
          bs4.Text " World"])
    = "HellobigWorld"
  ∧ (∀ page_title heading paras rest,
       extract_title (article_page page_title heading paras rest)
       = Some (py.strip heading)
       ∧ extract_text (article_page page_title heading paras rest)
         = Some (py.join (String "010"%char (String "010"%char EmptyString))
                   (List.filter py.truthy (List.map py.strip paras))))
  ∧ (∀ page_title paras,
       extract_title (article_page_no_h1 page_title paras)
       = Some (py.strip page_title)).
Proof.
  split_and!.
  - intros u st html st1 Hget Hpage.
    rewrite (extract_article_content_result u st html st1 Hget), Hpage.
    eexists. split_and!; reflexivity.
  - reflexivity.
  - intros soup h Hh. unfold extract_title.
    by rewrite (find_first _ _ _ Hh).
  - intros soup t Hn Ht. unfold extract_title.
    by rewrite (find_none _ _ Hn), (find_first _ _ _ Ht).
  - intros soup Hn Ht. unfold extract_title.
    by rewrite (find_none _ _ Hn), (find_none _ _ Ht).
  - intros soup body [Hb|[Hn Hb]]; apply extract_text_of_body;
      unfold find_article_body.
    + by rewrite (find_first _ _ _ Hb).
    + by rewrite (find_none _ _ Hn), (find_first _ _ _ Hb).
  - intros soup Hn Hd. unfold extract_text, find_article_body.
    by rewrite (find_none _ _ Hn), (find_none _ _ Hd).
  - reflexivity.
  - apply get_text_single.
  - vm_compute. reflexivity.
  - intros page_title heading paras rest. split.
    + unfold extract_title, bs4.find, bs4.find_all. simpl.
      by rewrite get_text_single.
    + unfold extract_text, find_article_body, bs4.find. simpl.
      by rewrite find_all_paragraphs, paragraph_texts.
  - intros page_title paras.
    unfold extract_title, bs4.find, bs4.find_all. simpl.
    rewrite !app_nil_r.
    assert (List.filter (bs4.is_tag "h1")
              (List.flat_map (λ c, c :: bs4.descendants c)
                 (List.map paragraph paras)) = []) as ->.
    { induction paras as [|s paras IH]; [done|]. simpl. exact IH. }
    simpl. by rewrite get_text_single.
Qed.

End Properties.

(** ** Further properties *)

Section Further.

Local Open Scope nat_scope.

Variable cfg : Config.
Variable env : Env.

(** *** [get_page] *)






Lemma get_page_recovers_from u body k :
  ∀ retries st,
  retries + k ≤ MAX_RETRIES cfg →
  (∀ i, i < k → http_get env (clock st + 2 * i) u = None) →
  http_get env (clock st + 2 * k) u = Some body →
  fst (get_page cfg env u retries st) = Some body
  ∧ trace (snd (get_page cfg env u retries st))
    = (trace st ++ attempts u (REQUEST_DELAY cfg * 2) k (Some body))%list.
Proof.
  induction k as [|k IH]; intros retries st Hk Hfail Hok.
  - rewrite get_page_equation_1.
    replace (clock st + 2 * 0) with (clock st) in Hok by lia.
    rewrite Hok. simpl. done.
  - rewrite get_page_equation_1.
    pose proof (Hfail 0 ltac:(lia)) as H0.
    replace (clock st + 2 * 0) with (clock st) in H0 by lia.
    rewrite H0. simpl.
    destruct (lt_dec retries (MAX_RETRIES cfg)) as [Hlt|Hge]; [|lia].
    simpl.
    set (st2 := sleep (REQUEST_DELAY cfg * 2) (log (EvGet u None) st)).
    assert (clock st2 = clock st + 2) as Hc.
    { unfold st2, clock, sleep, log. simpl. rewrite !length_app. simpl. lia. }
    destruct (IH (S retries) st2) as (Hr & Ht); [lia| | |].
    + intros i Hi. rewrite Hc.
      replace (clock st + 2 + 2 * i) with (clock st + 2 * S i) by lia.
      apply Hfail. lia.
    + rewrite Hc.
      replace (clock st + 2 + 2 * k) with (clock st + 2 * S k) by lia.
      exact Hok.
    + split; [exact Hr|]. rewrite Ht. unfold st2, attempts, sleep, log. simpl.
      by rewrite <- !app_assoc.
Qed.

(** X2.  When the first [k <= MAX_RETRIES] requests for a URL fail and the
    next one succeeds, [get_page] returns the body of that response after
    exactly [k] pauses; it changes neither the collection nor the scraped
    set. *)
Theorem get_page_recovers (u body : string) (k : nat) (st : state) :
  k ≤ MAX_RETRIES cfg →
  (∀ i, i < k → http_get env (clock st + 2 * i) u = None) →
  http_get env (clock st + 2 * k) u = Some body →
  let st' := snd (get_page cfg env u 0 st) in
  fst (get_page cfg env u 0 st) = Some body
  ∧ events_since st st' = attempts u (REQUEST_DELAY cfg * 2) k (Some body)
  ∧ articles st' = articles st
  ∧ scraped_urls st' = scraped_urls st.
Proof.
  intros Hk Hfail Hok st'.
  destruct (get_page_recovers_from u body k 0 st) as (Hr & Ht); try done.
  destruct (get_page_run cfg env u 0 st) as (d & Hd & (Ht' & Ha & Hs)).
  fold st' in Ht, Ht', Ha, Hs.
  split_and!; [exact Hr|by apply events_since_app| |].
  - rewrite Ha, (net_saves _ Hd). by rewrite app_nil_r.
  - rewrite Hs, (net_marked _ Hd). simpl. by rewrite (right_id_L ∅ (∪)).
Qed.

(** *** [extract_article_links] *)

Lemma keep_link_antitone u st st' :
  scraped_urls st ⊆ scraped_urls st' →
  keep_link cfg env u st' = true → keep_link cfg env u st = true.
Proof.
  intros Hsub. rewrite !keep_link_spec.
  intros (Hp & Hb & Hn & Hl & He). split_and!; try done.
  intros Hin. apply Hn. by apply Hsub.
Qed.

Lemma extract_article_links_raised soup base_url st :
  extract_article_links cfg env soup base_url st = Raised
  ↔ ∃ link, In link (anchors soup) ∧ urljoin env base_url (href link) = None.
Proof. apply collect_links_raised. Qed.

(** X3.  [extract_article_links] raises exactly when [urljoin] raises on
    the target of one of the anchors, whatever the scraped set is, and
    returns otherwise.  When it returns, it returns exactly the resolved
    anchor targets that pass the filter of lines 73-79: none is left out.
    None of the returned URLs is in the scraped set, and a larger scraped
    set can only remove links from the result. *)
Theorem extract_article_links_exact (soup : bs4.node) (base_url : string)
    (st : state) :
  (extract_article_links cfg env soup base_url st = Raised
   ↔ ∃ link, In link (anchors soup)
             ∧ urljoin env base_url (href link) = None)
  ∧ ((∀ link, In link (anchors soup) →
              urljoin env base_url (href link) ≠ None) →
     ∃ links, extract_article_links cfg env soup base_url st
              = Returned links)
  ∧ (∀ links,
       extract_article_links cfg env soup base_url st = Returned links →
       (∀ u, u ∈ links
             ↔ (∃ link, In link (anchors soup)
                        ∧ urljoin env base_url (href link) = Some u)
               ∧ keep_link cfg env u st = true)
       ∧ links ## scraped_urls st
       ∧ (∀ st', scraped_urls st ⊆ scraped_urls st' →
            ∃ links',
              extract_article_links cfg env soup base_url st'
              = Returned links'
              ∧ links' ⊆ links)).
Proof.
  split_and!.
  - apply extract_article_links_raised.
  - intros Hall.
    destruct (extract_article_links cfg env soup base_url st) as [links|] eqn:H;
      [by exists links|].
    apply extract_article_links_raised in H as (link & Hl & Hn).
    by destruct (Hall link Hl).
  - intros links Hret. split_and!.
    + intros u. by apply extract_article_links_spec.
    + intros u [_ Hk]%(extract_article_links_spec _ _ _ _ _ _ _ Hret) Hin.
      apply keep_link_spec in Hk as (_ & _ & Hn & _). by apply Hn.
    + intros st' Hsub.
      destruct (extract_article_links cfg env soup base_url st')
        as [links'|] eqn:H'.
      * exists links'. split; [done|].
        intros u [Hl Hk]%(extract_article_links_spec _ _ _ _ _ _ _ H').
        apply (extract_article_links_spec _ _ _ _ _ _ _ Hret).
        split; [done|]. by apply (keep_link_antitone u st st').
      * apply extract_article_links_raised in H'.
        apply (extract_article_links_raised soup base_url st) in H'.
        congruence.
Qed.

(** *** [scrape_category] without its page *)

(** X4.  When every request for the category page fails, [scrape_category]
    gives up after the retries of [get_page] and returns: it marks,
    extracts and writes nothing, and the collection and the scraped set are
    as before. *)
Theorem scrape_category_unreachable (category_url : string)
    (max_articles : nat) (st : state) :
  (∀ t, http_get env t category_url = None) →
  let st' := snd (scrape_category cfg env category_url max_articles st) in
  fst (scrape_category cfg env category_url max_articles st) = Returned tt
  ∧ events_since st st'
    = failed_attempts category_url (REQUEST_DELAY cfg * 2) (MAX_RETRIES cfg)
  ∧ articles st' = articles st
  ∧ scraped_urls st' = scraped_urls st.
Proof.
  intros Hfail st'.
  destruct (get_page_failing_from cfg env category_url (MAX_RETRIES cfg) Hfail
              0 st) as (st1 & Hget & Ht & Ha & Hs); [done|].
  subst st'. unfold scrape_category. rewrite Hget. simpl.
  split_and!; [done|by apply events_since_app|exact Ha|exact Hs].
Qed.

(** *** Fields of the record *)

Lemma keep_link_path u st :
  keep_link cfg env u st = true →
  3 ≤ List.length (py.split "/" (urlparse_path env u)).
Proof. intros H. by apply keep_link_spec in H as (_ & _ & _ & ? & _). Qed.

(** X5.  For a URL that the link filter accepts, a page without a category
    meta tag always gets a category: the piece of the URL's path between its
    first and second slash. *)
Theorem category_from_url (u : string) (st : state) (soup : bs4.node) :
  keep_link cfg env u st = true →
  bs4.find (λ n, bs4.is_tag "meta" n
                 && bs4.attr_is "property" "article:section" n) soup = None →
  bs4.find (λ n, bs4.is_tag "meta" n
                 && bs4.attr_is "name" "category" n) soup = None →
  ∃ first second rest,
    py.split "/" (urlparse_path env u) = first :: second :: rest
    ∧ extract_category env u soup = Some second.
Proof.
  intros Hk H1 H2. apply keep_link_path in Hk.
  unfold extract_category. rewrite H1, H2. simpl.
  destruct (py.split "/" (urlparse_path env u)) as [|a [|b l]];
    simpl in *; try lia.
  by exists a, b, l.
Qed.

(** X6.  A level-1 heading that is blank hides the title element: the title
    is empty and the page is rejected, although the page has a title element
    and paragraphs with text. *)
Theorem blank_heading_rejected (u : string) (st : state) (html : string)
    (st1 : state) (page_title heading : string) (paras : list string)
    (rest : list bs4.node) :
  get_page cfg env u 0 (log (EvExtract u) st) = (Some html, st1) →
  lxml env html = article_page page_title heading paras rest →
  py.strip heading = EmptyString →
  extract_title (lxml env html) = Some EmptyString
  ∧ extract_article_content cfg env u st = (None, st1).
Proof.
  intros Hget Hpage Hblank.
  assert (extract_title (lxml env html) = Some EmptyString) as Ht.
  { rewrite Hpage. unfold extract_title, bs4.find, bs4.find_all. simpl.
    by rewrite get_text_single, Hblank. }
  split; [exact Ht|].
  rewrite (extract_article_content_result cfg env u st html st1 Hget).
  by rewrite Ht.
Qed.

Lemma join_nonempty sep part parts :
  part ≠ EmptyString → py.join sep (part :: parts) ≠ EmptyString.
Proof.
  intros Hp. unfold py.join. simpl.
  destruct parts; [done|]. destruct part; [done|]. discriminate.
Qed.

Lemma truthy_ne s : py.truthy s = true ↔ s ≠ EmptyString.
Proof.
  unfold py.truthy. rewrite negb_true_iff. split.
  - intros H ->. discriminate H.
  - intros H. by apply String.eqb_neq.
Qed.

(** X7.  The extracted text is non-empty exactly when the page has a
    content container and one of the paragraphs in it has text. *)
Theorem text_nonempty_iff (soup : bs4.node) :
  py.truthy_opt (extract_text soup) = true
  ↔ ∃ body p, find_article_body soup = Some body
              ∧ In p (bs4.find_all (bs4.is_tag "p") body)
              ∧ bs4.get_text p ≠ EmptyString.
Proof.
  unfold extract_text. destruct (find_article_body soup) as [body|].
  2:{ split; [discriminate|]. by intros (? & ? & ? & _). }
  set (ps := bs4.find_all (bs4.is_tag "p") body). simpl.
  split.
  - intros H. apply truthy_ne in H.
    destruct (List.filter (λ p, py.truthy (bs4.get_text p)) ps) as [|p l] eqn:Hf;
      [done|].
    assert (In p (List.filter (λ p, py.truthy (bs4.get_text p)) ps)) as Hin
      by (rewrite Hf; by left).
    apply List.filter_In in Hin as [Hin Hp]. apply truthy_ne in Hp.
    exists body, p. split_and!; [reflexivity|exact Hin|exact Hp].
  - intros (body' & p & [= <-] & Hin & Hp). fold ps in Hin.
    apply truthy_ne.
    assert (In p (List.filter (λ p, py.truthy (bs4.get_text p)) ps)) as Hin'
      by (apply List.filter_In; split; [done|by apply truthy_ne]).
    destruct (List.filter (λ p, py.truthy (bs4.get_text p)) ps) as [|q l] eqn:Hf;
      [done|].
    simpl. apply join_nonempty.
    assert (In q (List.filter (λ p, py.truthy (bs4.get_text p)) ps)) as Hq
      by (rewrite Hf; by left).
    apply List.filter_In in Hq as [_ Hq]. by apply truthy_ne.
Qed.

(** *** The file of a record *)

Lemma string_length_app s1 s2 :
  String.length (s1 ++ s2) = String.length s1 + String.length s2.
Proof. induction s1 as [|c s1 IH]; simpl; [done|]. by rewrite IH. Qed.

Lemma take_length_le n s : String.length (py.take n s) ≤ n.
Proof.
  revert s. induction n as [|n IH]; intros [|c s]; simpl; try lia.
  specialize (IH s). lia.
Qed.

Lemma endswith_app p s : py.endswith p (s ++ p) = true.
Proof.
  induction s as [|c s IH]; simpl.
  - destruct p; simpl; [done|]. by rewrite Ascii.eqb_refl, String.eqb_refl.
  - rewrite IH. apply orb_true_r.
Qed.

(** The date part of the name of the file of a record. *)
Lemma article_filename_prefix a st :
  ∃ prefix,
    article_filename config st a
    = prefix ++ "_" ++ generate_article_id st (url a) ++ ".json"
    ∧ prefix ≠ EmptyString
    ∧ String.length prefix ≤ 10
    ∧ py.startswith "/" prefix
      = match date a with
        | Some d => py.startswith "/" d
        | None => false
        end.
Proof.
  unfold article_filename. destruct (date a) as [[|c d]|].
  - exists "unknown". split_and!; [exact (format_filename _ _)|done| |done].
    simpl. lia.
  - exists (String c (py.take 9 d)).
    split_and!; [exact (format_filename _ _)|done| |done].
    pose proof (take_length_le 9 d). cbn [String.length]. lia.
  - exists "unknown". split_and!; [exact (format_filename _ _)|done| |done].
    simpl. lia.
Qed.

Lemma string_app_assoc s1 s2 s3 : (s1 ++ s2) ++ s3 = s1 ++ s2 ++ s3.
Proof.
  induction s1 as [|c s1 IH]; [done|].
  change (String c ((s1 ++ s2) ++ s3) = String c (s1 ++ s2 ++ s3)).
  by rewrite IH.
Qed.

(** X8.  With the repository's configuration the name of the file of a
    record ends in [.json] and has between 19 and 28 characters: its date
    part is never empty and never longer than 10 characters, whatever the
    date of the record is. *)
Theorem article_filename_shape (a : article) (st : state) :
  let f := article_filename config st a in
  py.endswith ".json" f = true
  ∧ 19 ≤ String.length f ≤ 28
  ∧ ∃ prefix,
      f = prefix ++ "_" ++ generate_article_id st (url a) ++ ".json"
      ∧ 1 ≤ String.length prefix ≤ 10.
Proof.
  intros f. subst f.
  destruct (article_filename_prefix a st) as (prefix & Hf & Hne & Hlen & _).
  rewrite Hf.
  assert (1 ≤ String.length prefix) as H1
    by (destruct prefix; [done|simpl; lia]).
  split_and!.
  - rewrite <- (string_app_assoc "_"), <- string_app_assoc.
    apply endswith_app.
  - rewrite !string_length_app, generate_article_id_length. simpl. lia.
  - rewrite !string_length_app, generate_article_id_length. simpl. lia.
  - exists prefix. split_and!; done.
Qed.

(** X9.  With the repository's configuration [save_article] writes the
    record to [data/<name>], except when the date of the record starts with
    a slash: then the name of the file starts with a slash and
    [os.path.join] drops the data directory, so the path that is written is
    the name itself. *)
Theorem save_article_path (a : article) (st : state) :
  let f := article_filename config st a in
  let path := if match date a with
                 | Some d => py.startswith "/" d
                 | None => false
                 end
              then f else "data/" ++ f in
  events_since st (save_article config env a st)
  = [EvWrite path (JsonArticle a) (disk_write env (clock st) path)].
Proof.
  intros f path.
  destruct (save_article_run config env a st) as (p & ok & -> & -> & Hrun).
  rewrite (run_of_events _ _ _ Hrun).
  assert (os_path_join (DATA_DIR config) (article_filename config st a) = path)
    as ->; [|done].
  subst path f.
  destruct (article_filename_prefix a st) as (prefix & Hf & Hne & _ & Hs).
  rewrite <- Hs, Hf. unfold os_path_join.
  destruct prefix as [|c prefix]; [done|]. simpl.
  by destruct (Ascii.eqb "/" c).
Qed.

(** *** The shape of the history of a run *)

Lemma extract_article_content_some u st a :
  fst (extract_article_content cfg env u st) = Some a →
  url a = u ∧ valid_record a = true.
Proof.
  unfold extract_article_content, valid_record.
  destruct (get_page cfg env u 0 (log (EvExtract u) st)) as [[html|] st1];
    [|discriminate].
  cbn [title text].
  destruct (py.truthy_opt (extract_title (lxml env html))) eqn:Ht,
    (py.truthy_opt (extract_text (lxml env html))) eqn:Hx; simpl;
    try discriminate.
  intros [= <-]. simpl. by rewrite Ht, Hx.
Qed.

Lemma article_filename_self st a :
  article_filename cfg st a = article_filename cfg init a.
Proof. reflexivity. Qed.

Lemma history_app us1 us2 d1 d2 :
  history cfg env us1 d1 → history cfg env us2 d2 →
  history cfg env (us1 ++ us2) (d1 ++ d2).
Proof.
  intros H1 H2. induction H1 as [|us net d Hnet H IH|u us dv d Hv H IH].
  - exact H2.
  - rewrite <- app_assoc. by apply history_net.
  - rewrite <- app_assoc. by apply (history_visit cfg env u).
Qed.

Lemma history_of_net net :
  forallb is_net net = true → history cfg env [] net.
Proof.
  intros H. rewrite <- (app_nil_r net).
  apply history_net; [done|apply history_nil].
Qed.

(** One iteration of the loop that does not skip its link is a visit. *)
Lemma iteration_visit u st :
  ∃ dv,
    run_of dv st
      (sleep (REQUEST_DELAY cfg)
         (snd (extract_and_save cfg env u (mark_scraped u st))))
    ∧ visit cfg env u dv.
Proof.
  pose proof (run_of_mark u st) as Hmark.
  set (st1 := mark_scraped u st) in *.
  destruct (extract_article_content_run cfg env u st1) as (d & Hd & Hrun).
  pose proof (extract_article_content_some u st1) as Hsome.
  unfold extract_and_save.
  destruct (extract_article_content cfg env u st1) as [[a|] st2];
    simpl in Hrun, Hsome |- *.
  - destruct (Hsome a eq_refl) as [Hu Hv].
    destruct (save_article_run cfg env a st2) as (path & ok & -> & -> & Hsave).
    rewrite article_filename_self in Hsave.
    eexists. split; [|by apply (visit_extracted cfg env u d a (clock st2))].
    apply (run_of_trans [_] (EvExtract u :: d ++ [_; _]) _ _ _ Hmark).
    apply (run_of_trans (_ :: _) [_; _] _ _ _ Hrun).
    apply (run_of_trans [_] [_] _ _ _ Hsave). by apply run_of_log.
  - eexists. split; [|by apply (visit_rejected cfg env u d)].
    apply (run_of_trans [_] (EvExtract u :: d ++ [_]) _ _ _ Hmark).
    apply (run_of_trans (_ :: _) [_] _ _ _ Hrun). by apply run_of_log.
Qed.

Lemma scrape_links_history max_articles links :
  ∀ count st,
  ∃ us d, run_of d st (scrape_links cfg env max_articles links count st)
          ∧ history cfg env us d
          ∧ us `sublist_of` links.
Proof.
  induction links as [|u rest IH]; intros count st; simpl.
  { exists [], []. split_and!; [apply run_of_refl|apply history_nil|done]. }
  destruct (max_articles <=? count).
  { exists [], []. split_and!; [apply run_of_refl|apply history_nil|].
    apply sublist_nil_l. }
  destruct (bool_decide (u ∈ scraped_urls st)).
  { destruct (IH count st) as (us & d & Hrun & Hh & Hs).
    exists us, d. split_and!; [done|done|by apply sublist_cons]. }
  destruct (iteration_visit u st) as (dv & Hrun1 & Hv).
  destruct (extract_and_save cfg env u (mark_scraped u st)) as [saved st2].
  simpl in Hrun1.
  destruct (IH (if saved then S count else count)
              (sleep (REQUEST_DELAY cfg) st2)) as (us & d & Hrun2 & Hh & Hs).
  exists (u :: us), (dv ++ d)%list. split_and!.
  - by apply (run_of_trans _ _ _ _ _ Hrun1).
  - by apply history_visit.
  - by apply sublist_skip.
Qed.

Lemma scrape_category_history category_url max_articles st :
  ∃ us d,
    run_of d st (snd (scrape_category cfg env category_url max_articles st))
    ∧ history cfg env us d
    ∧ ∀ u, In u us →
           ∃ html st0 links,
             get_page cfg env category_url 0 st = (Some html, st0)
             ∧ extract_article_links cfg env (lxml env html) category_url st0
               = Returned links
             ∧ In u (set_iter env links).
Proof.
  unfold scrape_category.
  destruct (get_page_run cfg env category_url 0 st) as (d0 & Hd0 & Hrun0).
  destruct (get_page cfg env category_url 0 st) as [[html|] st0];
    simpl in Hrun0.
  - destruct (extract_article_links cfg env (lxml env html) category_url st0)
      as [links|] eqn:Hlinks; simpl.
    + destruct (scrape_links_history max_articles (set_iter env links) 0 st0)
        as (us & d & Hrun & Hh & Hs).
      exists us, (d0 ++ d)%list. split_and!.
      * by apply (run_of_trans _ _ _ st0).
      * by apply history_net.
      * intros u Hu. exists html, st0, links. split_and!; [done|done|].
        apply list_elem_of_In. eapply elem_of_sublist; [|exact Hs].
        by apply list_elem_of_In.
    + exists [], d0.
      split_and!; [done|by apply history_of_net|by intros ? []].
  - exists [], d0. simpl.
    split_and!; [done|by apply history_of_net|by intros ? []].
Qed.

Lemma scrape_categories_history category_urls :
  ∀ total st,
  ∃ us d,
    run_of d st (snd (scrape_categories cfg env category_urls total st))
    ∧ history cfg env us d.
Proof.
  induction category_urls as [|c rest IH]; intros total st; simpl.
  { exists [], []. split; [apply run_of_refl|apply history_nil]. }
  destruct (scrape_category_history c (MAX_ARTICLES_PER_CATEGORY cfg) st)
    as (us1 & d1 & Hrun1 & Hh1 & _).
  destruct (scrape_category cfg env c (MAX_ARTICLES_PER_CATEGORY cfg) st)
    as [[[]|] st1]; simpl in Hrun1.
  - destruct (IH (total + (List.length (articles st1) - List.length (articles st)))
                st1) as (us2 & d2 & Hrun2 & Hh2).
    exists (us1 ++ us2)%list, (d1 ++ d2)%list. split.
    + by apply (run_of_trans _ _ _ st1).
    + by apply history_app.
  - exists us1, d1. by split.
Qed.




(** What a history says about its events. *)
Lemma visit_extracted_marked u dv :
  visit cfg env u dv → extracted dv = [u] ∧ marked dv = [u].
Proof.
  intros [u' net Hnet|u' net a t Hnet Hu Hv].
  - change (EvMark u' :: EvExtract u' :: net ++ [EvSleep (REQUEST_DELAY cfg)])%list
      with ([EvMark u'; EvExtract u'] ++ net ++ [EvSleep (REQUEST_DELAY cfg)])%list.
    by rewrite !extracted_app, !marked_app, (net_extracted _ Hnet),
      (net_marked _ Hnet).
  - match goal with |- context [(EvMark ?x :: EvExtract ?y :: net ++ ?l)%list] =>
      change (EvMark x :: EvExtract y :: net ++ l)%list
        with ([EvMark x; EvExtract y] ++ net ++ l)%list
    end.
    by rewrite !extracted_app, !marked_app, (net_extracted _ Hnet),
      (net_marked _ Hnet).
Qed.

Lemma history_extracted_marked us d :
  history cfg env us d → extracted d = us ∧ marked d = us.
Proof.
  induction 1 as [|us net d Hnet H [IHx IHm]|u us dv d Hv H [IHx IHm]].
  - done.
  - by rewrite extracted_app, marked_app, (net_extracted _ Hnet),
      (net_marked _ Hnet).
  - destruct (visit_extracted_marked u dv Hv) as [Hx Hm].
    by rewrite extracted_app, marked_app, Hx, Hm, IHx, IHm.
Qed.

Lemma visit_saves u dv :
  visit cfg env u dv →
  successful_saves dv = []
  ∨ ∃ a, successful_saves dv = [a] ∧ url a = u ∧ valid_record a = true.
Proof.
  intros [u' net Hnet|u' net a t Hnet Hu Hv].
  - left.
    change (EvMark u' :: EvExtract u' :: net ++ [EvSleep (REQUEST_DELAY cfg)])%list
      with ([EvMark u'; EvExtract u'] ++ net ++ [EvSleep (REQUEST_DELAY cfg)])%list.
    by rewrite !successful_saves_app, (net_saves _ Hnet).
  - match goal with |- context [(EvMark ?x :: EvExtract ?y :: net ++ ?l)%list] =>
      change (EvMark x :: EvExtract y :: net ++ l)%list
        with ([EvMark x; EvExtract y] ++ net ++ l)%list
    end.
    rewrite !successful_saves_app, (net_saves _ Hnet).
    unfold successful_saves at 1 2. simpl.
    destruct (disk_write env t _); [right; by exists a|by left].
Qed.

Lemma history_saves us d :
  history cfg env us d →
  Forall (λ a, valid_record a = true) (successful_saves d)
  ∧ List.map url (successful_saves d) `sublist_of` us.
Proof.
  induction 1 as [|us net d Hnet H [IHv IHs]|u us dv d Hv H [IHv IHs]].
  - split; [constructor|done].
  - by rewrite successful_saves_app, (net_saves _ Hnet).
  - rewrite successful_saves_app.
    destruct (visit_saves u dv Hv) as [->|(a & -> & Hu & Ha)]; simpl.
    + split; [done|by apply sublist_cons].
    + split; [by constructor|]. rewrite Hu. by apply sublist_skip.
Qed.




Lemma scrape_all_shape st :
  ∃ us d,
    match fst (scrape_all cfg env st) with
    | Returned total =>
        total = List.length (successful_saves d)
        ∧ trace (snd (scrape_all cfg env st))
          = (trace st ++ EvMakedirs (DATA_DIR cfg) :: d
             ++ [EvWrite (COMBINED_OUTPUT cfg)
                   (JsonArray (articles (snd (scrape_all cfg env st))))
                   (disk_write env (S (clock st + List.length d))
                      (COMBINED_OUTPUT cfg))])%list
    | Raised =>
        trace (snd (scrape_all cfg env st))
        = (trace st ++ EvMakedirs (DATA_DIR cfg) :: d)%list
    end
    ∧ history cfg env us d
    ∧ NoDup us
    ∧ (∀ u, In u us → u ∉ scraped_urls st)
    ∧ scraped_urls (snd (scrape_all cfg env st))
      = scraped_urls st ∪ list_to_set us
    ∧ articles (snd (scrape_all cfg env st))
      = (articles st ++ successful_saves d)%list.
Proof.
  unfold scrape_all.
  set (st0 := log (EvMakedirs (DATA_DIR cfg)) st).
  destruct (scrape_categories_run cfg env (CATEGORY_URLS cfg) 0 st0)
    as (d & Hrun & Htot & _ & _ & (N & F & _)).
  destruct (scrape_categories_history (CATEGORY_URLS cfg) 0 st0)
    as (us & d' & Hrun' & Hh).
  assert (d' = d) as ->
    by (rewrite <- (run_of_events _ _ _ Hrun'); by apply run_of_events).
  destruct (history_extracted_marked us d Hh) as [Hx Hm].
  destruct (scrape_categories cfg env (CATEGORY_URLS cfg) 0 st0)
    as [[total|] stc].
  - destruct Hrun as (Ht & Ha & Hs). simpl in *.
    exists us, d. unfold clock. rewrite Ht, Ha, Hs, Hm.
    rewrite !length_app, <- !app_assoc. simpl.
    replace (List.length (trace st) + 1 + List.length d)
      with (S (List.length (trace st) + List.length d)) by lia.
    rewrite Hx in N, F. split_and!; try done. by apply Htot.
  - destruct Hrun as (Ht & Ha & Hs). simpl in *.
    exists us, d. rewrite Ht, Ha, Hs, Hm, <- !app_assoc. simpl.
    rewrite Hx in N, F. split_and!; done.
Qed.


(** X11.  [scrape_all] only appends to the collection, whether it returns
    or raises, and when it returns it returns the number of records
    appended.  Every appended record passed the validation (non-empty title
    and text), no two of them have the same URL, and the URL of each is in
    the scraped set afterwards and was not there before. *)
Theorem saved_records_invariant (st : state) :
  let st' := snd (scrape_all cfg env st) in
  ∃ new,
    articles st' = (articles st ++ new)%list
    ∧ (∀ total, fst (scrape_all cfg env st) = Returned total →
                total = List.length new)
    ∧ Forall (λ a, valid_record a = true) new
    ∧ NoDup (List.map url new)
    ∧ ∀ a, In a new → url a ∈ scraped_urls st' ∧ url a ∉ scraped_urls st.
Proof.
  intros st'.
  destruct (scrape_all_shape st)
    as (us & d & Ht & Hh & Hn & Hf & Hs & Ha).
  destruct (history_saves us d Hh) as [Hv Hsub].
  exists (successful_saves d). split_and!; try done.
  - intros total Htot. rewrite Htot in Ht. by destruct Ht.
  - by apply (sublist_NoDup _ us).
  - intros a Hin.
    assert (In (url a) us) as Hu.
    { apply list_elem_of_In. eapply elem_of_sublist; [|exact Hsub].
      apply list_elem_of_In, in_map, Hin. }
    split; [|by apply Hf].
    unfold st'. rewrite Hs. apply elem_of_union_r, elem_of_list_to_set.
    by apply list_elem_of_In.
Qed.

(** X12.  When the loop over a set visits only members of the set,
    [scrape_category] extracts only URLs that pass the link filter of the
    category page: they start with [BASE_URL], contain one of the section
    substrings, have a path of at least 3 pieces and do not end with a
    slash. *)
Theorem scrape_category_extracts_links (category_url : string)
    (max_articles : nat) (st : state) (u : string) :
  (∀ s v, In v (set_iter env s) → v ∈ s) →
  In (EvExtract u)
    (events_since st
       (snd (scrape_category cfg env category_url max_articles st))) →
  py.startswith (BASE_URL cfg) u = true
  ∧ py.endswith "/" u = false
  ∧ (∃ pattern, In pattern link_patterns ∧ py.contains pattern u = true)
  ∧ 3 ≤ List.length (py.split "/" (urlparse_path env u)).
Proof.
  intros Hiter Hin.
  destruct (scrape_category_history category_url max_articles st)
    as (us & d & Hrun & Hh & Hlinks).
  rewrite (run_of_events _ _ _ Hrun) in Hin.
  destruct (history_extracted_marked us d Hh) as [Hx _].
  apply in_extracted in Hin. rewrite Hx in Hin.
  destruct (Hlinks u Hin) as (html & st0 & links & _ & Hret & Hu).
  apply Hiter, (extract_article_links_spec _ _ _ _ _ _ _ Hret) in Hu
    as [_ Hk].
  apply keep_link_spec in Hk as (? & ? & _ & ? & ?). done.
Qed.







(** *** The content container *)

Lemma paragraphs_no_tag nm paras :
  nm ≠ "p" →
  List.filter (bs4.is_tag nm)
    (List.flat_map (λ c, c :: bs4.descendants c) (List.map paragraph paras))
  = [].
Proof.
  intros Hnm. induction paras as [|s paras IH]; [done|].
  cbn [List.map List.flat_map]. rewrite List.filter_app, IH, app_nil_r.
  unfold paragraph.
  cbn [bs4.descendants List.flat_map app List.filter bs4.is_tag].
  destruct (String.eqb "p" nm) eqn:H; [|done].
  apply String.eqb_eq in H. by subst nm.
Qed.

Lemma paragraphs_no_match (f : bs4.node → bool) paras :
  List.filter (λ n, bs4.is_tag "div" n && f n)
    (List.flat_map (λ c, c :: bs4.descendants c) (List.map paragraph paras))
  = [].
Proof. induction paras as [|s paras IH]; [done|]. simpl. exact IH. Qed.

(** X16.  An [article] element is the content container even when a [div]
    comes before it on the page, whatever the class of the [div]: the text
    is made of the paragraphs of the [article] element only. *)
Theorem article_before_div (cls : string) (div_paras paras : list string) :
  find_article_body (div_then_article_page cls div_paras paras)
  = Some (bs4.Tag "article" [] (List.map paragraph paras))
  ∧ extract_text (div_then_article_page cls div_paras paras)
    = Some (py.join blank_line
              (List.filter py.truthy (List.map py.strip paras))).
Proof.
  assert (find_article_body (div_then_article_page cls div_paras paras)
          = Some (bs4.Tag "article" [] (List.map paragraph paras))) as H.
  { unfold find_article_body, bs4.find, bs4.find_all. simpl.
    rewrite !app_nil_r, List.filter_app, (paragraphs_no_tag "article") by done.
    reflexivity. }
  split; [exact H|].
  unfold extract_text. rewrite H.
  by rewrite find_all_paragraphs, paragraph_texts.
Qed.

Lemma split_ws_aux_single cur s :
  all_chars (λ c, negb (py.is_space c)) s = true →
  py.split_ws_aux cur s
  = if String.eqb (cur ++ s) EmptyString then [] else [cur ++ s].
Proof.
  revert cur. induction s as [|c s IH]; intros cur Hs; simpl.
  - assert (cur ++ EmptyString = cur) as ->; [|done].
    clear. induction cur as [|c cur IH]; [done|].
    change (String c (cur ++ EmptyString) = String c cur). by rewrite IH.
  - simpl in Hs. apply andb_prop in Hs as [Hc Hs].
    apply negb_true_iff in Hc. rewrite Hc, (IH _ Hs).
    by rewrite string_app_assoc.
Qed.

Lemma class_matches_single f nm cls children :
  all_chars (λ c, negb (py.is_space c)) cls = true →
  bs4.class_matches f (bs4.Tag nm [("class", cls)] children) = f cls.
Proof.
  intros Hs. unfold bs4.class_matches, py.split_ws. simpl.
  rewrite (split_ws_aux_single EmptyString cls Hs).
  change (EmptyString ++ cls) with cls.
  destruct cls as [|c cls]; [done|].
  change (String.eqb (String c cls) EmptyString) with false.
  cbn [existsb py.join String.concat]. by destruct (f (String c cls)).
Qed.

(** X17.  On a page whose body is a single element with one class, that
    element is the content container exactly when it is an [article]
    element, or a [div] whose class contains article, content, body or
    text in any letter case; any other element, whatever its class, gives
    no text at all. *)
Theorem container_is_article_or_div (nm cls : string) (paras : list string) :
  all_chars (λ c, negb (py.is_space c)) cls = true →
  extract_text (container_page nm cls paras)
  = if String.eqb nm "article" || (String.eqb nm "div" && body_class cls)
    then Some (py.join blank_line
                 (List.filter py.truthy (List.map py.strip paras)))
    else None.
Proof.
  intros Hcls.
  pose proof (class_matches_single body_class nm cls
                (List.map paragraph paras) Hcls) as Hm.
  assert (find_article_body (container_page nm cls paras)
          = if String.eqb nm "article" || (String.eqb nm "div" && body_class cls)
            then Some (bs4.Tag nm [("class", cls)] (List.map paragraph paras))
            else None) as Hbody.
  { unfold find_article_body, bs4.find, bs4.find_all.
    cbn [container_page document bs4.descendants List.flat_map List.map app
         List.filter bs4.is_tag String.eqb Ascii.eqb Bool.eqb andb].
    rewrite !app_nil_r.
    destruct (String.eqb nm "article") eqn:Ha; [done|].
    rewrite paragraphs_no_tag by done. cbn [head or_tag orb].
    destruct (String.eqb nm "div") eqn:Hd; cbn [andb].
    - rewrite Hm. destruct (body_class cls); [done|].
      by rewrite paragraphs_no_match.
    - by rewrite paragraphs_no_match. }
  unfold extract_text. rewrite Hbody.
  destruct (String.eqb nm "article" || (String.eqb nm "div" && body_class cls));
    [|done].
  by rewrite find_all_paragraphs, paragraph_texts.
Qed.

(** *** Meta tags *)

Lemma find_some p n x : bs4.find p n = Some x → p x = true.
Proof.
  unfold bs4.find, bs4.find_all. intros H.
  assert (In x (List.filter p (bs4.descendants n))) as Hin.
  { destruct (List.filter p (bs4.descendants n)); [discriminate H|].
    injection H as ->. by left. }
  by apply List.filter_In in Hin as [_ ?].
Qed.

(** X18.  A meta tag decides its field on its own.  When the page has an
    author meta tag, the author is the content attribute of that tag, and
    the record has no author when the attribute is missing, whatever author
    spans or links the page has; when the page has a category meta tag, the
    category is the content attribute of that tag and the URL is not
    used. *)
Theorem meta_tags_decide (u : string) (soup tag : bs4.node) :
  (bs4.find (λ n, bs4.is_tag "meta" n && bs4.attr_is "name" "author" n) soup
   = Some tag →
   extract_author soup = bs4.get "content" tag)
  ∧ (bs4.find (λ n, bs4.is_tag "meta" n
                    && bs4.attr_is "property" "article:section" n) soup
     = Some tag →
     extract_category env u soup = bs4.get "content" tag)
  ∧ (bs4.find (λ n, bs4.is_tag "meta" n
                    && bs4.attr_is "property" "article:section" n) soup
     = None →
     bs4.find (λ n, bs4.is_tag "meta" n && bs4.attr_is "name" "category" n)
       soup = Some tag →
     extract_category env u soup = bs4.get "content" tag).
Proof.
  split_and!.
  - intros H. unfold extract_author. rewrite H. simpl.
    apply find_some, andb_prop in H as [-> _]. done.
  - intros H. unfold extract_category. by rewrite H.
  - intros H1 H2. unfold extract_category. by rewrite H1, H2.
Qed.

(** *** Trimmed fields *)

Lemma lstrip_clean s : starts_clean (py.lstrip s) = true.
Proof.
  induction s as [|c s IH]; [done|]. simpl.
  destruct (py.is_space c) eqn:Hc; [exact IH|]. simpl. by rewrite Hc.
Qed.

Lemma lstrip_id s : starts_clean s = true → py.lstrip s = s.
Proof.
  destruct s as [|c s]; [done|]. simpl. intros H.
  apply negb_true_iff in H. by rewrite H.
Qed.

Lemma rstrip_clean s : ends_clean (py.rstrip s) = true.
Proof.
  induction s as [|c s IH]; [done|]. simpl.
  destruct (py.rstrip s) as [|c' r] eqn:Hr.
  - destruct (py.is_space c) eqn:Hc; [done|]. simpl. by rewrite Hc.
  - exact IH.
Qed.

Lemma rstrip_id s : ends_clean s = true → py.rstrip s = s.
Proof.
  induction s as [|c s IH]; [done|]. intros H. simpl.
  destruct s as [|c' s'].
  - simpl in *. apply negb_true_iff in H. by rewrite H.
  - rewrite (IH H). done.
Qed.

Lemma rstrip_starts s :
  starts_clean s = true → starts_clean (py.rstrip s) = true.
Proof.
  destruct s as [|c s]; [done|]. simpl. intros H.
  destruct (py.rstrip s); [|exact H].
  apply negb_true_iff in H. rewrite H. simpl. by rewrite H.
Qed.

Lemma strip_clean s :
  starts_clean (py.strip s) = true ∧ ends_clean (py.strip s) = true.
Proof.
  unfold py.strip. split; [apply rstrip_starts, lstrip_clean|apply rstrip_clean].
Qed.

Lemma strip_id s :
  starts_clean s = true → ends_clean s = true → py.strip s = s.
Proof.
  intros H1 H2. unfold py.strip. by rewrite (lstrip_id s H1), (rstrip_id s H2).
Qed.

Lemma ends_clean_app x y :
  y ≠ EmptyString → ends_clean (x ++ y) = ends_clean y.
Proof.
  intros Hy. induction x as [|c x IH]; [done|].
  change (ends_clean (String c (x ++ y)) = ends_clean y).
  destruct (x ++ y) as [|c' r] eqn:Hxy; [|exact IH].
  destruct x; [done|discriminate Hxy].
Qed.

Lemma concat_nonempty sep x l :
  x ≠ EmptyString → String.concat sep (x :: l) ≠ EmptyString.
Proof. intros Hx. simpl. destruct l; [done|]. destruct x; [done|discriminate]. Qed.

Lemma concat_clean sep l :
  Forall (λ x, x ≠ EmptyString
               ∧ starts_clean x = true ∧ ends_clean x = true) l →
  starts_clean (String.concat sep l) = true
  ∧ ends_clean (String.concat sep l) = true.
Proof.
  induction 1 as [|x l (Hx & Hs & He) Hl [IHs IHe]]; [done|].
  destruct l as [|y l]; [done|].
  change (String.concat sep (x :: y :: l))
    with (x ++ sep ++ String.concat sep (y :: l)).
  split.
  - destruct x; [done|exact Hs].
  - assert (String.concat sep (y :: l) ≠ EmptyString) as Hne.
    { apply concat_nonempty. by apply Forall_inv in Hl as (? & _). }
    rewrite ends_clean_app.
    + by rewrite ends_clean_app.
    + destruct sep; [done|discriminate].
Qed.

Lemma get_text_clean n :
  starts_clean (bs4.get_text n) = true ∧ ends_clean (bs4.get_text n) = true.
Proof.
  unfold bs4.get_text, py.join. apply concat_clean.
  apply Forall_forall. intros x Hx%list_elem_of_In.
  apply List.filter_In in Hx as [Hin Hne].
  apply truthy_ne in Hne. split; [done|].
  apply List.in_map_iff in Hin as (s & <- & _). apply strip_clean.
Qed.

(** X19.  The title and the text of every extracted record are trimmed:
    neither starts or ends with whitespace, so stripping them again changes
    nothing. *)
Theorem extracted_fields_trimmed (u : string) (st : state) (a : article) :
  fst (extract_article_content cfg env u st) = Some a →
  ∃ t x, title a = Some t ∧ text a = Some x
         ∧ py.strip t = t ∧ py.strip x = x.
Proof.
  unfold extract_article_content.
  destruct (get_page cfg env u 0 (log (EvExtract u) st)) as [[html|] st1];
    [|discriminate].
  cbn [title text].
  destruct (py.truthy_opt (extract_title (lxml env html))) eqn:Ht,
    (py.truthy_opt (extract_text (lxml env html))) eqn:Hx; simpl;
    try discriminate.
  intros [= <-]. simpl.
  destruct (extract_title (lxml env html)) as [t|] eqn:Et; [|discriminate].
  destruct (extract_text (lxml env html)) as [x|] eqn:Ex; [|discriminate].
  exists t, x. split_and!; try done.
  - unfold extract_title in Et. destruct (or_tag _ _) as [tag|]; [|discriminate].
    injection Et as <-. apply strip_id; apply get_text_clean.
  - unfold extract_text in Ex.
    destruct (find_article_body _) as [body|]; [|discriminate].
    injection Ex as <-.
    assert (starts_clean
              (py.join blank_line
                 (List.map bs4.get_text
                    (List.filter (λ p, py.truthy (bs4.get_text p))
                       (bs4.find_all (bs4.is_tag "p") body)))) = true
            ∧ ends_clean
                (py.join blank_line
                   (List.map bs4.get_text
                      (List.filter (λ p, py.truthy (bs4.get_text p))
                         (bs4.find_all (bs4.is_tag "p") body)))) = true)
      as [Hs He].
    { apply concat_clean, Forall_forall. intros y Hy%list_elem_of_In.
      apply List.in_map_iff in Hy as (p & <- & Hp).
      apply List.filter_In in Hp as [_ Hp]. apply truthy_ne in Hp.
      split; [done|apply get_text_clean]. }
    by apply strip_id.
Qed.

(** *** The cap counts records, not visits *)




End Further.
(** ** The model on concrete inputs *)

Example md5_empty :
  hashlib.md5_hexdigest [] = "d41d8cd98f00b204e9800998ecf8427e".
Proof. vm_compute. reflexivity. Qed.

Example md5_abc :
  hashlib.md5_hexdigest (py.encode "abc") = "900150983cd24fb0d6963f7d28e17f72".
Proof. vm_compute. reflexivity. Qed.

(** 56 bytes: the padding runs into a second block. *)
Example md5_two_blocks :
  hashlib.md5_hexdigest (List.repeat 97%Z 56)
  = "3b0c8ac703f828b04c6c197006d17218".
Proof. vm_compute. reflexivity. Qed.

(** 119 bytes: the padded message is exactly two blocks. *)
Example md5_119_bytes :
  hashlib.md5_hexdigest (List.repeat 97%Z 119)
  = "8a7bd0732ed6a28ce75f6dabc90e1613".
Proof. vm_compute. reflexivity. Qed.

(** Two characters above 127 (228 and 255) are encoded in two bytes each. *)
Example md5_latin1 :
  let s := String (ascii_of_nat 228) (String (ascii_of_nat 255) EmptyString) in
  py.encode s = [195; 164; 195; 191]%Z
  ∧ hashlib.md5_hexdigest (py.encode s) = "3b291242c2777c32227381ad94b326de".
Proof. vm_compute. done. Qed.

Example generate_article_id_example :
  generate_article_id init example_url = "593c54e9936b".
Proof. vm_compute. reflexivity. Qed.

Example split_examples :
  py.split "/" "/politik" = [EmptyString; "politik"]
  ∧ py.split "/" "/politik/article1/test.html"
    = [EmptyString; "politik"; "article1"; "test.html"]
  ∧ py.split "/" EmptyString = [EmptyString].
Proof. by vm_compute. Qed.

(** The listing of the example site yields exactly its one article link. *)
Example listing_links :
  ∃ links,
    extract_article_links config (example_env example_site true) listing_page
      "https://www.welt.de/politik/" init
    = Returned links
    ∧ elements links = [example_url].
Proof. eexists. split; [reflexivity|]. vm_compute. reflexivity. Qed.

(** A target that [urljoin] refuses ends the extraction of the links, and
    the run with it: the combined file is not written. *)
Example bad_target_raises :
  let env :=
    example_env [("https://www.welt.de/politik/", bad_target_listing);
                 (example_url, hello_world_page)] true in
  urljoin env "https://www.welt.de/politik/" "//[" = None
  ∧ extract_article_links config env bad_target_listing
      "https://www.welt.de/politik/" init
    = Raised
  ∧ fst (scrape_all config env init) = Raised
  ∧ trace (snd (scrape_all config env init))
    = [EvMakedirs "data";
       EvGet "https://www.welt.de/politik/"
         (Some "https://www.welt.de/politik/")]
  ∧ articles (snd (scrape_all config env init)) = [].
Proof. vm_compute. done. Qed.

(** A run over the example site saves its one article, then the list. *)
Example example_run :
  let '(total, st) := scrape_all config (example_env example_site true) init in
  total = Returned 1
  ∧ List.filter is_write (trace st)
    = [EvWrite "data/unknown_593c54e9936b.json"
         (JsonArticle
            {| url := example_url;
               scraped_at := "2024-01-15T12:00:00";
               title := Some "Title";
               text := Some ("Hello" ++ blank_line ++ "World");
               date := None;
               author := None;
               category := Some "politik" |}) true;
       EvWrite "data/all_articles.json" (JsonArray (articles st)) true]
  ∧ List.length (articles st) = 1
  ∧ elements (scraped_urls st) = [example_url].
Proof. vm_compute. done. Qed.

(** A heading without any paragraph text: nothing is returned and nothing
    is written. *)
Example no_text_page_not_saved :
  extract_and_save config (example_env [(example_url, no_text_page)] true)
    example_url init
  = (false,
     log (EvGet example_url (Some example_url))
       (log (EvExtract example_url) init)).
Proof. vm_compute. reflexivity. Qed.

(** A date in words is kept as it is, and its first 10 characters name the
    file. *)
Example worded_date_saved :
  List.filter is_write
    (trace (snd (extract_and_save config
                   (example_env [(example_url, worded_date_page)] true)
                   example_url init)))
  = [EvWrite "data/gestern Ab_593c54e9936b.json"
       (JsonArticle
          {| url := example_url;
             scraped_at := "2024-01-15T12:00:00";
             title := Some "Title";
             text := Some "Hello";
             date := Some "gestern Abend";
             author := Some "A. Author";
             category := Some "politik" |}) true].
Proof. vm_compute. reflexivity. Qed.

(** *** Witnesses *)


Lemma extract_article_links_filter_witness :
  ∃ links,
    extract_article_links config (example_env example_site true)
      listing_page "https://www.welt.de/politik/" init
    = Returned links
    ∧ example_url ∈ links
    ∧ py.startswith "https://www.welt.de" example_url = true
    ∧ ¬ (List.length (path_segments (example_path example_url)) < 2)%nat
    ∧ py.endswith "/" example_url = false.
Proof.
  eexists. split; [reflexivity|].
  match goal with |- ?u ∈ ?l ∧ _ => assert (u ∈ l) as H end.
  { apply (bool_decide_unpack _). vm_compute. exact I. }
  split; [exact H|].
  destruct (extract_article_links_filter config
              (example_env example_site true) listing_page
              "https://www.welt.de/politik/" init _ example_url eq_refl H)
    as (_ & _ & Hs & _ & _ & Hp & He).
  split; [exact Hs|]. split; [exact Hp|exact He].
Defined.

Lemma persisted_iff_valid_and_written_witness :
  get_page config (example_env example_site true) example_url 0
    (log (EvExtract example_url) init)
  = (Some example_url,
     log (EvGet example_url (Some example_url))
       (log (EvExtract example_url) init))
  ∧ List.length
      (successful_saves
         (events_since init
            (snd (extract_and_save config (example_env example_site true)
                    example_url init)))) = 1.
Proof.
  assert (get_page config (example_env example_site true) example_url 0
            (log (EvExtract example_url) init)
          = (Some example_url,
             log (EvGet example_url (Some example_url))
               (log (EvExtract example_url) init))) as H
    by (vm_compute; reflexivity).
  split; [exact H|].
  destruct (persisted_iff_valid_and_written config
              (example_env example_site true) example_url init _ _ H)
    as (_ & _ & Hsaved & _).
  destruct Hsaved as [-> _]; [split; reflexivity|reflexivity|reflexivity].
Defined.

Lemma unparseable_date_kept_witness :
  let env := example_env [(example_url, worded_date_page)] true in
  get_page config env example_url 0 (log (EvExtract example_url) init)
  = (Some example_url,
     log (EvGet example_url (Some example_url))
       (log (EvExtract example_url) init))
  ∧ find_date_tag (lxml env example_url)
    = Some (bs4.Tag "time" [("datetime", "gestern Abend")] [])
  ∧ date_parse env "gestern Abend" = None
  ∧ extract_date env (lxml env example_url) = Some "gestern Abend".
Proof.
  intros env.
  assert (get_page config env example_url 0 (log (EvExtract example_url) init)
          = (Some example_url,
             log (EvGet example_url (Some example_url))
               (log (EvExtract example_url) init))) as H
    by (vm_compute; reflexivity).
  assert (find_date_tag (lxml env example_url)
          = Some (bs4.Tag "time" [("datetime", "gestern Abend")] [])) as Ht
    by (vm_compute; reflexivity).
  split_and!; [exact H|exact Ht|reflexivity|].
  exact (proj1 (unparseable_date_kept config env example_url init _ _ _
                  H Ht eq_refl)).
Defined.

Lemma extractor_scenario_witness :
  ∃ a, fst (extract_article_content config (example_env example_site true)
              example_url init) = Some a
       ∧ title a = Some "Title"
       ∧ text a
         = Some ("Hello" ++ String "010"%char (String "010"%char "World")).
Proof.
  apply (proj1 (extractor_scenario config (example_env example_site true))
           example_url init example_url
           (log (EvGet example_url (Some example_url))
              (log (EvExtract example_url) init))).
  - vm_compute. reflexivity.
  - reflexivity.
Defined.

Lemma article_filename_spec_witness :
  article_filename config init empty_date_article
  = "unknown" ++ "_" ++ generate_article_id init example_url ++ ".json".
Proof.
  apply (proj1 (article_filename_spec (example_env [] true)
                  empty_date_article init)).
  right. reflexivity.
Defined.

(** *** Counterexamples *)

(** C1 as stated fails when the disk refuses the write: the page has a title
    and a text, and no record is saved. *)
Lemma persisted_iff_valid_counterexample :
  ¬ persisted_iff_valid config (example_env example_site false)
      example_url init.
Proof.
  intros H.
  specialize (H example_url
                (log (EvGet example_url (Some example_url))
                   (log (EvExtract example_url) init))).
  destruct H as [_ H]; [vm_compute; reflexivity|].
  apply H; [split; vm_compute; reflexivity|].
  vm_compute. reflexivity.
Qed.

(** C6 as stated fails on a record whose date is the empty string: the page
    [empty_time_page] yields such a record, and its file is named
    [unknown_...], not [_...]. *)
Lemma filename_as_stated_counterexample :
  fst (extract_article_content config
         (example_env [(example_url, empty_time_page)] true) example_url init)
  = Some empty_date_article
  ∧ article_filename config init empty_date_article
    = "unknown_593c54e9936b.json"
  ∧ filename_as_stated init empty_date_article = "_593c54e9936b.json"
  ∧ article_filename config init empty_date_article
    ≠ filename_as_stated init empty_date_article.
Proof.
  split_and!; try (vm_compute; reflexivity).
  vm_compute. discriminate.
Qed.

(** C2 as stated fails on a link two segments deep: the listing links to
    [/sport/a], the URL [https://www.welt.de/sport/a] is returned, and its
    path has the 2 segments [sport] and [a]; the code counts 3 pieces,
    the empty one before the leading slash included. *)
Lemma links_have_three_segments_counterexample :
  let env := example_env [] true in
  (∃ links,
     extract_article_links config env short_path_listing
       "https://www.welt.de/sport/" init
     = Returned links
     ∧ elements links = ["https://www.welt.de/sport/a"])
  ∧ urlparse_path env "https://www.welt.de/sport/a" = "/sport/a"
  ∧ py.split "/" "/sport/a" = [EmptyString; "sport"; "a"]
  ∧ path_segments "/sport/a" = ["sport"; "a"]
  ∧ ¬ links_have_three_segments config env short_path_listing
        "https://www.welt.de/sport/" init.
Proof.
  intros env. split_and!.
  - eexists. split; [reflexivity|]. vm_compute. reflexivity.
  - reflexivity.
  - reflexivity.
  - reflexivity.
  - intros H.
    apply (H _ "https://www.welt.de/sport/a" eq_refl).
    + apply (bool_decide_unpack _). vm_compute. exact I.
    + vm_compute. lia.
Qed.

(** C5 as stated fails on a paragraph with markup inside: from
    [<p>Hello <b>big</b> World</p>] the text is [HellobigWorld], the three
    text nodes stripped one by one and put together, and not the stripped
    text of the paragraph, [Hello big World]. *)
Lemma text_as_stated_counterexample :
  let body :=
    bs4.Tag "article" []
      [bs4.Tag "p" []
         [bs4.Text "Hello "; bs4.Tag "b" [] [bs4.Text "big"];
          bs4.Text " World"]] in
  find_article_body inline_markup_page = Some body
  ∧ extract_text inline_markup_page = Some "HellobigWorld"
  ∧ text_as_stated body = "Hello big World"
  ∧ extract_text inline_markup_page ≠ Some (text_as_stated body)
  ∧ ∃ a, fst (extract_article_content config
                (example_env [(example_url, inline_markup_page)] true)
                example_url init) = Some a
         ∧ title a = Some "Title"
         ∧ text a = Some "HellobigWorld".
Proof.
  intros body. split_and!; try (vm_compute; reflexivity).
  - vm_compute. discriminate.
  - eexists. split_and!; vm_compute; reflexivity.
Qed.

(** *** Further witnesses *)

Lemma get_page_recovers_witness :
  (∀ i, (i < 2)%nat →
        http_get (flaky_env 4) (clock init + 2 * i) example_url = None)
  ∧ http_get (flaky_env 4) (clock init + 2 * 2) example_url = Some example_url
  ∧ fst (get_page config (flaky_env 4) example_url 0 init) = Some example_url
  ∧ events_since init (snd (get_page config (flaky_env 4) example_url 0 init))
    = [EvGet example_url None; EvSleep 4;
       EvGet example_url None; EvSleep 4;
       EvGet example_url (Some example_url)].
Proof.
  assert (∀ i, (i < 2)%nat →
               http_get (flaky_env 4) (clock init + 2 * i) example_url = None)
    as Hfail.
  { intros i Hi. destruct i as [|[|i]]; [reflexivity|reflexivity|lia]. }
  split; [exact Hfail|]. split; [reflexivity|].
  destruct (get_page_recovers config (flaky_env 4) example_url example_url 2
              init) as (Hr & Hev & _); [simpl; lia|exact Hfail|reflexivity|].
  split; [exact Hr|exact Hev].
Defined.

Lemma scrape_category_unreachable_witness :
  (∀ t, http_get (example_env [] true) t "https://www.welt.de/sport/" = None)
  ∧ fst (scrape_category config (example_env [] true)
           "https://www.welt.de/sport/" 50 init) = Returned tt
  ∧ articles (snd (scrape_category config (example_env [] true)
                     "https://www.welt.de/sport/" 50 init)) = [].
Proof.
  split; [reflexivity|].
  destruct (scrape_category_unreachable config (example_env [] true)
              "https://www.welt.de/sport/" 50 init) as (Hr & _ & Ha & _);
    [reflexivity|]. split; [exact Hr|exact Ha].
Defined.

Lemma category_from_url_witness :
  keep_link config (example_env example_site true) example_url init = true
  ∧ ∃ first second rest,
      py.split "/" (example_path example_url) = first :: second :: rest
      ∧ extract_category (example_env example_site true) example_url
          hello_world_page = Some second.
Proof.
  assert (keep_link config (example_env example_site true) example_url init
          = true) as Hk by (vm_compute; reflexivity).
  split; [exact Hk|].
  apply (category_from_url config (example_env example_site true) example_url
           init hello_world_page Hk); vm_compute; reflexivity.
Defined.

Lemma blank_heading_rejected_witness :
  let env := example_env blank_h1_site true in
  get_page config env example_url 0 (log (EvExtract example_url) init)
  = (Some example_url,
     log (EvGet example_url (Some example_url))
       (log (EvExtract example_url) init))
  ∧ py.strip "  " = EmptyString
  ∧ fst (extract_article_content config env example_url init) = None.
Proof.
  intros env.
  assert (get_page config env example_url 0 (log (EvExtract example_url) init)
          = (Some example_url,
             log (EvGet example_url (Some example_url))
               (log (EvExtract example_url) init))) as Hget
    by (vm_compute; reflexivity).
  split; [exact Hget|]. split; [reflexivity|].
  destruct (blank_heading_rejected config env example_url init _ _
              "A title" "  " ["Hello"] [] Hget eq_refl eq_refl) as [_ ->].
  reflexivity.
Defined.

Lemma scrape_category_extracts_links_witness :
  let env := example_env example_site true in
  (∀ s v, In v (set_iter env s) → v ∈ s)
  ∧ In (EvExtract example_url)
      (events_since init
         (snd (scrape_category config env "https://www.welt.de/politik/" 50
                 init)))
  ∧ py.startswith "https://www.welt.de" example_url = true
  ∧ py.endswith "/" example_url = false.
Proof.
  intros env.
  assert (∀ s v, In v (set_iter env s) → v ∈ s) as Hiter.
  { intros s v H. by apply elem_of_elements, list_elem_of_In. }
  assert (In (EvExtract example_url)
            (events_since init
               (snd (scrape_category config env "https://www.welt.de/politik/"
                       50 init)))) as Hin.
  { vm_compute. right. right. left. reflexivity. }
  split; [exact Hiter|]. split; [exact Hin|].
  destruct (scrape_category_extracts_links config env
              "https://www.welt.de/politik/" 50 init example_url Hiter Hin)
    as (Hs & He & _).
  split; [exact Hs|exact He].
Defined.



Lemma container_is_article_or_div_witness :
  all_chars (λ c, negb (py.is_space c)) "Main-Content" = true
  ∧ extract_text (container_page "div" "Main-Content" ["Hello"]) = Some "Hello"
  ∧ extract_text (container_page "section" "content" ["Hello"]) = None.
Proof.
  split; [reflexivity|]. split.
  - apply (container_is_article_or_div "div" "Main-Content" ["Hello"]).
    reflexivity.
  - apply (container_is_article_or_div "section" "content" ["Hello"]).
    reflexivity.
Defined.

Lemma meta_tags_decide_witness :
  bs4.find (λ n, bs4.is_tag "meta" n && bs4.attr_is "name" "author" n)
    meta_author_page
  = Some (bs4.Tag "meta" [("name", "author")] [])
  ∧ extract_author meta_author_page = None.
Proof.
  split; [reflexivity|].
  apply (proj1 (meta_tags_decide (example_env [] true) example_url
                  meta_author_page
                  (bs4.Tag "meta" [("name", "author")] []))).
  reflexivity.
Defined.

Lemma extracted_fields_trimmed_witness :
  ∃ t x,
    Some "Title" = Some t ∧ Some ("Hello" ++ blank_line ++ "World") = Some x
    ∧ py.strip t = t ∧ py.strip x = x.
Proof.
  apply (extracted_fields_trimmed config (example_env example_site true)
           example_url init
           {| url := example_url;
              scraped_at := "2024-01-15T12:00:00";
              title := Some "Title";
              text := Some ("Hello" ++ blank_line ++ "World");
              date := None;
              author := None;
              category := Some "politik" |}).
  vm_compute. reflexivity.
Defined.

